(** * ng_package packager: a shallow embedding of
      packages/bazel/src/ng_package/packager.ts

    The packager assembles an npm package directory from build outputs.
    This development embeds its path algebra, its file placement, its
    manifest amendment and its entry-point synthesis, and states the
    properties of the specification over that embedding.

    Conventions.
    - JavaScript strings are [string]; lengths and indices count
      characters of that type (the inputs of interest are ASCII).
    - [path] is Node's POSIX implementation, so [path.join] and
      [path.posix.join] coincide.
    - The file system is a finite map from resolved absolute paths to file
      contents.  Directories are not tracked: every write of the source is
      preceded by [mkdir -p] of its directory, which is therefore a no-op
      here, and no destination is taken to be an existing directory.
    - The arguments of shelljs commands hold no glob characters.
    - [console.error], [fs.writeFileSync], [shx.cp], [shx.mv] and [shx.sed]
      leave an event in the state, most recent first. *)

From Stdlib Require Import Ascii String.
From stdpp Require Import base option list strings gmap.

(** ** JavaScript string methods *)

Module JS.

Definition backslash : ascii := "\"%char.

Definition isEmpty (s : string) : bool :=
  match s with EmptyString => true | _ => false end.

(** Truthiness of a string value: only [''] is falsy. *)
Definition truthy (s : string) : bool := negb (isEmpty s).

(** Truthiness of a possibly [undefined] string. *)
Definition truthyOpt (o : option string) : bool :=
  match o with Some s => truthy s | None => false end.

(** [s.startsWith(p)] *)
Fixpoint startsWith (s p : string) : bool :=
  match p, s with
  | EmptyString, _ => true
  | String _ _, EmptyString => false
  | String a p', String b s' => if Ascii.eqb a b then startsWith s' p' else false
  end.

(** [s.substr(n)] for [n >= 0] *)
Fixpoint substr (s : string) (n : nat) {struct n} : string :=
  match n, s with
  | O, _ => s
  | S _, EmptyString => EmptyString
  | S k, String _ s' => substr s' k
  end.

(** [s.substr(0, n)] *)
Fixpoint take (s : string) (n : nat) {struct n} : string :=
  match n, s with
  | O, _ => EmptyString
  | S _, EmptyString => EmptyString
  | S k, String c s' => String c (take s' k)
  end.

(** [s.endsWith(p)] *)
Definition endsWith (s p : string) : bool :=
  (String.length p <=? String.length s)%nat &&
  String.eqb (substr s (String.length s - String.length p)) p.

(** [s.indexOf(p)], with [None] for [-1] *)
Fixpoint indexOf (s p : string) : option nat :=
  if startsWith s p then Some O
  else match s with
       | EmptyString => None
       | String _ s' => S <$> indexOf s' p
       end.

(** [s.lastIndexOf(p)], with [None] for [-1] *)
Fixpoint lastIndexOf (s p : string) : option nat :=
  match s with
  | EmptyString => if startsWith s p then Some O else None
  | String _ s' =>
      match lastIndexOf s' p with
      | Some i => Some (S i)
      | None => if startsWith s p then Some O else None
      end
  end.

(** [s.includes(p)] *)
Definition includes (s p : string) : bool :=
  match indexOf s p with Some _ => true | None => false end.

(** [s.split(sep)] for a non-empty separator: [skip] counts the
    characters of a separator just matched that are still to be dropped,
    [cur] is the part being read. *)
Fixpoint splitFrom (sep : string) (skip : nat) (cur : string) (s : string)
  : list string :=
  match s with
  | EmptyString => [cur]
  | String c s' =>
      match skip with
      | S k => splitFrom sep k cur s'
      | O =>
          if startsWith s sep
          then cur :: splitFrom sep (String.length sep - 1) EmptyString s'
          else splitFrom sep O (cur +:+ String c EmptyString) s'
      end
  end.

Definition split (s sep : string) : list string := splitFrom sep O EmptyString s.

(** [parts.join(sep)] *)
Definition join (parts : list string) (sep : string) : string :=
  String.concat sep parts.

(** [s.replace(/c/g, d)] for single characters *)
Fixpoint replaceChar (c d : ascii) (s : string) : string :=
  match s with
  | EmptyString => EmptyString
  | String a s' => String (if Ascii.eqb a c then d else a) (replaceChar c d s')
  end.

(** [s.replace(p, r)] for a string pattern [p] and a replacement without
    [$]: the first occurrence only. *)
Definition replaceFirst (s p r : string) : string :=
  match indexOf s p with
  | Some i => take s i +:+ r +:+ substr s (i + String.length p)
  | None => s
  end.

(** [s.replace(/suffix$/, '')] for a literal suffix *)
Definition stripSuffix (s suffix : string) : string :=
  if endsWith s suffix then take s (String.length s - String.length suffix) else s.

End JS.

(** [newArray(size, value)], the exported helper at the end of the file. *)
Definition newArray {T : Type} (size : nat) (value : T) : list T :=
  Nat.iter size (fun acc => acc ++ [value]) [].

(** ** Node's [path] module, POSIX flavour *)

Module Path.

Definition slash : string := "/".

(** One step of [normalizeString] on the stack of kept segments (last
    segment first): empty and [.] segments are dropped, [..] removes the
    last kept segment unless there is none or it is [..] itself, in which
    case it is kept only when the path may climb above its root. *)
Definition normStep (allowAboveRoot : bool) (kept : list string) (seg : string)
  : list string :=
  if String.eqb seg "" || String.eqb seg "." then kept
  else if String.eqb seg ".." then
    match kept with
    | top :: rest =>
        if String.eqb top ".."
        then (if allowAboveRoot then ".." :: kept else kept)
        else rest
    | [] => if allowAboveRoot then [".."] else []
    end
  else seg :: kept.

Definition normalizeSegments (allowAboveRoot : bool) (p : string) : list string :=
  rev (fold_left (normStep allowAboveRoot) (JS.split p slash) []).

Definition normalizeString (p : string) (allowAboveRoot : bool) : string :=
  JS.join (normalizeSegments allowAboveRoot p) slash.

Definition isAbsolute (p : string) : bool := JS.startsWith p slash.

(** [path.normalize(p)] *)
Definition normalize (p : string) : string :=
  if JS.isEmpty p then "."
  else
    let trailingSeparator := JS.endsWith p slash in
    let q := normalizeString p (negb (isAbsolute p)) in
    if JS.isEmpty q then
      (if isAbsolute p then "/" else if trailingSeparator then "./" else ".")
    else
      let q := if trailingSeparator then q +:+ "/" else q in
      if isAbsolute p then "/" +:+ q else q.

(** [path.join(...args)] *)
Definition join (args : list string) : string :=
  match filter (fun a => JS.truthy a = true) args with
  | [] => "."
  | parts => normalize (JS.join parts slash)
  end.

(** [path.resolve(p)] in the working directory [cwd] *)
Definition resolve (cwd p : string) : string :=
  let here := if JS.isEmpty p then "" else p +:+ "/" in
  let '(resolvedPath, resolvedAbsolute) :=
    if isAbsolute p then (here, true)
    else if JS.isEmpty cwd then (here, false)
    else (cwd +:+ "/" +:+ here, isAbsolute cwd) in
  let q := normalizeString resolvedPath (negb resolvedAbsolute) in
  if resolvedAbsolute then "/" +:+ q
  else if JS.isEmpty q then "." else q.

(** The segments of a resolved path. *)
Definition resolvedSegments (p : string) : list string :=
  filter (fun a => JS.truthy a = true) (JS.split p slash).

Fixpoint dropCommon (from to : list string) : list string * list string :=
  match from, to with
  | a :: from', b :: to' =>
      if String.eqb a b then dropCommon from' to' else (from, to)
  | _, _ => (from, to)
  end.

(** [path.relative(from, to)]: both paths are resolved, their common
    leading segments are dropped, and one [..] per remaining segment of
    [from] is followed by the remaining segments of [to]. *)
Definition relative (cwd from to : string) : string :=
  if String.eqb from to then ""
  else
    let f := resolve cwd from in
    let t := resolve cwd to in
    if String.eqb f t then ""
    else
      let '(up, down) := dropCommon (resolvedSegments f) (resolvedSegments t) in
      JS.join (map (fun _ => "..") up ++ down) slash.

Definition isSlash (c : ascii) : bool := Ascii.eqb c "/"%char.

(** The scan of [dirname]: [rest] holds the characters at indices
    [i, i-1, ..., 1]; the result is the index of the last slash that
    follows a non-slash character when read from the end. *)
Fixpoint dirnameEnd (rest : list ascii) (i : nat) (matchedSlash : bool) : option nat :=
  match rest with
  | [] => None
  | c :: rest' =>
      if isSlash c then
        (if matchedSlash then dirnameEnd rest' (i - 1) matchedSlash else Some i)
      else dirnameEnd rest' (i - 1) false
  end.

(** [path.dirname(p)] *)
Definition dirname (p : string) : string :=
  if JS.isEmpty p then "."
  else
    let hasRoot := isAbsolute p in
    match dirnameEnd (rev (tail (list_ascii_of_string p))) (String.length p - 1) true with
    | None => if hasRoot then "/" else "."
    | Some e => if hasRoot && (e =? 1)%nat then "//" else JS.take p e
    end.

(** The scan of [basename] over the characters read from the end: trailing
    slashes are skipped, then characters are collected up to the next
    slash. *)
Fixpoint basenameScan (rest : list ascii) (matchedSlash : bool) (acc : list ascii)
  : list ascii :=
  match rest with
  | [] => acc
  | c :: rest' =>
      if isSlash c then
        (if matchedSlash then basenameScan rest' matchedSlash acc else acc)
      else basenameScan rest' false (c :: acc)
  end.

(** [path.basename(p)] *)
Definition basename (p : string) : string :=
  string_of_list_ascii (basenameScan (rev (list_ascii_of_string p)) true []).

End Path.

(** ** Bundle names *)

(** [getBundleName(packageName, dir)], lines 383-397. *)
Definition getBundleName (packageName dir : string) : string :=
  let parts := JS.split packageName "/" in
  (* parts.splice(1) returns the elements from index 1 on *)
  let nameParts := if JS.startsWith packageName "@" then drop 1 parts else parts in
  let ups := JS.join (newArray (length nameParts - 1) "..") "/" in
  let relativePath := if JS.truthy ups then ups else "." in
  let basename :=
    if String.eqb dir "bundles" then JS.join nameParts "-" +:+ ".umd"
    else if (length nameParts =? 1)%nat then default "" (head nameParts)
    else JS.join (drop 1 nameParts) "/" in
  JS.join [relativePath; dir; basename +:+ ".js"] "/".

(** ** Effects: errors, events and the file system *)

Inductive error : Type :=
| TypeError (what : string)      (* a method or argument of [undefined] *)
| SyntaxError (file : string)    (* [JSON.parse] on malformed text *)
| ENOENT (file : string)         (* [fs.readFileSync] on a missing file *)
| ShellError (what : string)     (* a failing shelljs command under [set -e] *)
| Unmodelled (what : string).    (* input outside what the embedding covers *)

Inductive event : Type :=
| Logged (message : string)
| Written (file : string)
| Copied (source target : string)
| Moved (source target : string)
| Edited (file : string).

Record State : Type := mkState {
  files : gmap string string;
  events : list event
}.

Inductive result (A : Type) : Type :=
| Ok (a : A)
| Throw (e : error).
Arguments Ok {A} a.
Arguments Throw {A} e.

Definition M (A : Type) : Type := State → result (A * State).

#[export] Instance M_ret : MRet M := λ A a st, Ok (a, st).
#[export] Instance M_bind : MBind M := λ A B f m st,
  match m st with
  | Ok (a, st') => f a st'
  | Throw e => Throw e
  end.

Definition throw {A : Type} (e : error) : M A := λ _, Throw e.
Definition getFiles : M (gmap string string) := λ st, Ok (files st, st).
Definition setFiles (fs : gmap string string) : M unit :=
  λ st, Ok (tt, mkState fs (events st)).
Definition emit (e : event) : M unit :=
  λ st, Ok (tt, mkState (files st) (e :: events st)).

(** [list.forEach(f)] for an effectful [f]. *)
Fixpoint forEach {A : Type} (f : A → M unit) (l : list A) : M unit :=
  match l with
  | [] => mret tt
  | x :: l' => f x ;; forEach f l'
  end.

(** A loop that threads an accumulator. *)
Fixpoint foldM {A B : Type} (f : B → A → M B) (b : B) (l : list A) : M B :=
  match l with
  | [] => mret b
  | x :: l' => b' ← f b x; foldM f b' l'
  end.

(** ** Regular expressions built from a file name

    [shx.sed] turns a string pattern into [RegExp(pattern)].  For a pattern
    without the metacharacters [\ ^ $ | ? * + ( ) [ ] { }] every character
    stands for itself, except [.] which matches any character but a line
    terminator; the match has the length of the pattern. *)

Module Regex.

Definition newline : ascii := "010"%char.
Definition carriageReturn : ascii := "013"%char.

Definition isLineTerminator (c : ascii) : bool :=
  Ascii.eqb c newline || Ascii.eqb c carriageReturn.

Definition metacharacters : list ascii :=
  list_ascii_of_string "\^$|?*+()[]{}".

Definition isMeta (c : ascii) : bool :=
  existsb (Ascii.eqb c) metacharacters.

(** The pattern is read character by character. *)
Definition plainPattern (p : string) : bool :=
  forallb (λ c, negb (isMeta c)) (list_ascii_of_string p).

(** The replacement holds no [$] sequence. *)
Definition plainReplacement (r : string) : bool :=
  forallb (λ c, negb (Ascii.eqb c "$"%char)) (list_ascii_of_string r).

Definition matchChar (p c : ascii) : bool :=
  if Ascii.eqb p "."%char then negb (isLineTerminator c) else Ascii.eqb p c.

(** The pattern matches at the start of [s]. *)
Fixpoint matchesAt (pat s : string) : bool :=
  match pat, s with
  | EmptyString, _ => true
  | String _ _, EmptyString => false
  | String p pat', String c s' => matchChar p c && matchesAt pat' s'
  end.

(** [line.replace(RegExp(pat), rep)]: the leftmost match only. *)
Fixpoint replaceFirstMatch (pat rep line : string) : string :=
  if matchesAt pat line then rep +:+ JS.substr line (String.length pat)
  else match line with
       | EmptyString => EmptyString
       | String c line' => String c (replaceFirstMatch pat rep line')
       end.

(** [s.replace(/pat$/, '')]: the pattern has to match the last
    characters of [s]. *)
Definition stripMatchAtEnd (pat s : string) : string :=
  let n := String.length s - String.length pat in
  if (String.length pat <=? String.length s)%nat && matchesAt pat (JS.substr s n)
  then JS.take s n else s.

End Regex.

(** ** Manifests and [JSON.stringify] *)

(** A parsed [package.json], typed [{[key: string]: string}] in the source:
    the own properties in enumeration order. *)
Abbreviation PackageJson := (list (string * string)).

(** [parsedPackage[key]] *)
Fixpoint getField (key : string) (pkg : PackageJson) : option string :=
  match pkg with
  | [] => None
  | (k, v) :: pkg' => if String.eqb k key then Some v else getField key pkg'
  end.

(** [parsedPackage[key] = value]: an existing property keeps its place, a
    new one goes last. *)
Fixpoint setField (key value : string) (pkg : PackageJson) : PackageJson :=
  match pkg with
  | [] => [(key, value)]
  | (k, v) :: pkg' =>
      if String.eqb k key then (k, value) :: pkg' else (k, v) :: setField key value pkg'
  end.

Module JSON.

Definition quoteMark : string := String "034"%char EmptyString.
Definition backslash : string := "\".
Definition lineFeed : string := String Regex.newline EmptyString.

Definition hexDigit (n : nat) : ascii :=
  default "0"%char (list_ascii_of_string "0123456789abcdef" !! n).

(** The escape of one character inside a JSON string. *)
Definition escapeChar (c : ascii) : string :=
  let n := nat_of_ascii c in
  if (n =? 34)%nat then backslash +:+ quoteMark
  else if (n =? 92)%nat then backslash +:+ backslash
  else if (n =? 8)%nat then backslash +:+ "b"
  else if (n =? 9)%nat then backslash +:+ "t"
  else if (n =? 10)%nat then backslash +:+ "n"
  else if (n =? 12)%nat then backslash +:+ "f"
  else if (n =? 13)%nat then backslash +:+ "r"
  else if (n <? 32)%nat then
    backslash +:+ "u00" +:+ String (hexDigit (n / 16)) (String (hexDigit (n mod 16)) EmptyString)
  else String c EmptyString.

Fixpoint escape (s : string) : string :=
  match s with
  | EmptyString => EmptyString
  | String c s' => escapeChar c +:+ escape s'
  end.

(** [JSON.stringify(s)] for a string *)
Definition quote (s : string) : string := quoteMark +:+ escape s +:+ quoteMark.

Definition member (kv : string * string) : string :=
  "  " +:+ quote kv.1 +:+ ": " +:+ quote kv.2.

(** [JSON.stringify(parsedPackage, null, 2)] *)
Definition stringify (pkg : PackageJson) : string :=
  match pkg with
  | [] => "{}"
  | _ => "{" +:+ lineFeed +:+ JS.join (map member pkg) ("," +:+ lineFeed)
         +:+ lineFeed +:+ "}"
  end.

End JSON.

(** ** The module-to-artifact mapping *)

(** One entry of [modulesManifest] (lines 46-55): [index] and [typings] are
    always given, [metadata] is optional (line 200), [guessedPaths] is a
    flag, and the two derived index paths are attached by [main] (lines
    197-198). *)
Record ModuleFiles : Type := mkModuleFiles {
  index : string;
  typings : string;
  metadata : option string;
  guessedPaths : bool;
  esm5_index : option string;
  esm2015_index : option string
}.

(** The parsed mapping, in the order of [Object.keys]. *)
Abbreviation ModulesManifest := (list (string * ModuleFiles)).

(** [modulesManifest[name]] *)
Fixpoint getModule (name : string) (mm : ModulesManifest) : option ModuleFiles :=
  match mm with
  | [] => None
  | (k, v) :: mm' => if String.eqb k name then Some v else getModule name mm'
  end.

(** The properties that the mapping, a plain object made by [JSON.parse],
    inherits from [Object.prototype]: a read of [modulesManifest[name]]
    finds them when the mapping has no own property of that name.  They are
    functions, but for [__proto__], the prototype itself; none is falsy and
    none has a property named as a field of an entry. *)
Definition objectPrototypeProperties : list string :=
  ["constructor"; "__defineGetter__"; "__defineSetter__"; "hasOwnProperty";
   "__lookupGetter__"; "__lookupSetter__"; "isPrototypeOf"; "propertyIsEnumerable";
   "toString"; "valueOf"; "__proto__"; "toLocaleString"].

Definition inheritedProperty (name : string) : bool :=
  existsb (String.eqb name) objectPrototypeProperties.

(** The parameters of a run (lines 32-103), with the comma-separated lists
    already split and the mapping already parsed. *)
Record Params : Type := mkParams {
  out : string;
  srcDir : string;
  binDir : string;
  genfilesDir : string;
  modulesManifestArg : ModulesManifest;
  readmeMd : string;
  fesm2015 : list string;
  fesm5 : list string;
  esm2015 : list string;
  esm5 : list string;
  bundles : list string;
  srcs : list string;
  typeDefinitions : list string;
  dataFiles : list string;
  licenseFile : string;
  dtsBundles : list string;
  dtsBundleFileSuffix : string
}.

(** The text engines of the host that the packager calls on whole files:
    they are parameters of the embedding. *)
Record Host : Type := mkHost {
  (** [process.cwd()], an absolute path *)
  cwd : string;
  (** [JSON.parse] on the text of a [package.json]; [None] when it throws *)
  parseManifest : string → option PackageJson;
  (** [.replace(/^\/\/\/ <amd-module name=.*\/>[\r\n]+/gm, '')] (line 488) *)
  stripAmdModule : string → string;
  (** the removal of license comments (line 226) *)
  stripLicenseComments : string → string;
  (** [JSON.parse] of a metadata file, the filter of its re-exports and the
      rewrite of the relative paths of its serialization to the given
      typings path (lines 459 and 471-477); [None] when the parse throws *)
  rewireExports : string → string → option string
}.

(** ** The packager *)

Section Packager.

Variable H : Host.
Variable P : Params.

(** *** Host operations *)

(** The key of a path in the file map. *)
Definition fileKey (p : string) : string := Path.resolve (cwd H) p.

Definition console_error (message : string) : M unit := emit (Logged message).

Definition fs_readFileSync (p : string) : M string :=
  fs ← getFiles;
  match fs !! fileKey p with
  | Some content => mret content
  | None => throw (ENOENT p)
  end.

Definition fs_writeFileSync (p content : string) : M unit :=
  fs ← getFiles;
  setFiles (<[fileKey p := content]> fs);;
  emit (Written (fileKey p)).

Definition shx_mkdir_p (dir : string) : M unit := mret tt.

Definition shx_chmod_w (file : string) : M unit := mret tt.

(** [shx.cp(source, target)]: the source has to exist and to differ from
    the target. *)
Definition shx_cp (source target : string) : M unit :=
  fs ← getFiles;
  match fs !! fileKey source with
  | None => throw (ShellError "cp: no such file or directory")
  | Some content =>
      if String.eqb (fileKey source) (fileKey target)
      then throw (ShellError "cp: source and target are the same file")
      else setFiles (<[fileKey target := content]> fs);;
           emit (Copied (fileKey source) (fileKey target))
  end.

(** [shx.mv(source, target)] *)
Definition shx_mv (source target : string) : M unit :=
  fs ← getFiles;
  match fs !! fileKey source with
  | None => throw (ShellError "mv: no such file or directory")
  | Some content =>
      setFiles (<[fileKey target := content]> (delete (fileKey source) fs));;
      emit (Moved (fileKey source) (fileKey target))
  end.

(** The text that [shx.sed] computes: every line has its leftmost match
    replaced. *)
Definition sedText (pattern replacement content : string) : string :=
  JS.join (map (Regex.replaceFirstMatch pattern replacement)
               (JS.split content JSON.lineFeed)) JSON.lineFeed.

(** [shx.sed('-i', pattern, replacement, file)] for a string pattern *)
Definition shx_sed_i (pattern replacement file : string) : M unit :=
  if Regex.plainPattern pattern && Regex.plainReplacement replacement then
    fs ← getFiles;
    match fs !! fileKey file with
    | None => throw (ShellError "sed: no such file or directory")
    | Some content =>
        setFiles (<[fileKey file := sedText pattern replacement content]> fs);;
        emit (Edited (fileKey file))
    end
  else throw (Unmodelled "sed: pattern with metacharacters").

Definition path_relative (from to : string) : string :=
  Path.relative (cwd H) from to.

(** *** Path re-rooting *)

(** The tree an input path is relativized against, lines 126-133. *)
Definition rootDirOf (inputPath : string) : string :=
  if JS.includes inputPath (binDir P) then binDir P
  else if JS.includes inputPath (genfilesDir P) then genfilesDir P
  else srcDir P.

Definition outputPathOf (inputPath : string) : string :=
  Path.join [out P; path_relative (rootDirOf inputPath) inputPath].

(** [writeFileFromInputPath], lines 121-140. *)
Definition writeFileFromInputPath (inputPath fileContent : string) : M unit :=
  let outputPath := outputPathOf inputPath in
  shx_mkdir_p (Path.dirname outputPath);;
  fs_writeFileSync outputPath fileContent.

(** [copyFileFromInputPath], lines 146-148. *)
Definition copyFileFromInputPath (inputPath : string) : M unit :=
  content ← fs_readFileSync inputPath;
  writeFileFromInputPath inputPath content.

(** [normalizeSeparators], lines 448-450. *)
Definition normalizeSeparators (p : string) : string :=
  JS.replaceChar JS.backslash "/"%char p.

(** The path that [srcDirRelative] computes before it is normalized. *)
Definition srcDirRelativeRaw (from file : string) : string :=
  path_relative (Path.dirname from)
                (Path.join [srcDir P; path_relative (binDir P) file]).

(** [srcDirRelative], lines 289-294. *)
Definition srcDirRelative (from file : string) : string :=
  let result := normalizeSeparators (srcDirRelativeRaw from file) in
  if JS.startsWith result ".." then result else "./" +:+ result.

(** *** Placement of bundles and modules *)

(** The name a file is copied under: [.js] for [.mjs], line 300. *)
Definition outputName (file : string) : string :=
  Path.basename
    (if JS.endsWith file ".mjs"
     then JS.take file (String.length file - 4) +:+ ".js"
     else file).

(** [copyFile], lines 296-318. *)
Definition copyFile (file baseDir relative : string) : M unit :=
  let dir := Path.join [baseDir; relative] in
  let outFile := Path.join [dir; outputName file] in
  shx_mkdir_p dir;;
  shx_cp file outFile;;
  if JS.includes outFile "__" then
    let outputPath := Path.join (dir :: JS.split (Path.basename outFile) "__") in
    shx_mkdir_p (Path.dirname outputPath);;
    shx_mv (Path.join [dir; Path.basename file]) outputPath;;
    if JS.endsWith outFile ".js" then
      shx_chmod_w outputPath;;
      shx_sed_i (Path.basename file +:+ ".map")
                (Path.basename outputPath +:+ ".map") outputPath
    else mret tt
  else mret tt.

(** [relPath] inside [writeEsmFile], lines 157-166. *)
Definition relPath (file suffix : string) : string :=
  if JS.truthy suffix then
    let cut :=
      match JS.lastIndexOf file (suffix +:+ "/") with
      | Some i => i + String.length suffix + 1
      | None => String.length suffix
      end in
    let root := JS.take file cut in
    Path.dirname (path_relative (Path.join [root; srcDir P]) file)
  else Path.dirname (path_relative (binDir P) file).

(** [writeEsmFile], lines 156-171. *)
Definition writeEsmFile (file suffix outDir : string) : M unit :=
  let rel := relPath file suffix in
  if JS.startsWith rel ".." then mret tt
  else copyFile file (Path.join [out P; outDir]) rel.

(** *** Manifest amendment *)

(** Lines 109-110. *)
Definition knownFormatPackageJsonFields : list string :=
  ["main"; "fesm2015"; "esm2015"; "typings"; "module"; "es2015"].

Definition isKnownFormatField (propertyName : string) : bool :=
  existsb (String.eqb propertyName) knownFormatPackageJsonFields.

(** [hasExplicitFormatProperties], lines 400-403. *)
Definition hasExplicitFormatProperties (parsedPackage : PackageJson) : bool :=
  existsb isKnownFormatField (map fst parsedPackage).

(** A possibly [undefined] name used as a property key or printed. *)
Definition propertyKey (name : option string) : string := default "undefined" name.

(** The three diagnostics of lines 344-347. *)
Definition warnNoModuleData (packageName : option string) : M unit :=
  console_error ("WARNING: no module metadata for package " +:+ propertyKey packageName);;
  console_error "   Not updating the package.json file to point to it";;
  console_error
    "   The ng_module for this package is possibly missing the module_name attribute ".

(** The three diagnostics of lines 356-360. *)
Definition warnExplicitFormat : M unit :=
  console_error "WARNING: `package.json` explicitly sets format properties (like `main`).";;
  console_error
    "    Skipping automatic insertion of format properties as explicit format properties are set.";;
  console_error "    Ignore this warning if explicit properties are set intentionally.".

(** The six assignments of lines 367-376. *)
Definition setFormatFields (packageJson packageName esm2015Index typingsFile : string)
    (parsedPackage : PackageJson) : PackageJson :=
  let p := setField "main" (getBundleName packageName "bundles") parsedPackage in
  let p := setField "fesm2015" (getBundleName packageName "fesm2015") p in
  let p := setField "esm2015" (srcDirRelative packageJson esm2015Index) p in
  let p := setField "typings" (srcDirRelative packageJson typingsFile) p in
  let p := from_option (λ v, setField "module" v p) p (getField "fesm2015" p) in
  from_option (λ v, setField "es2015" v p) p (getField "fesm2015" p).

(** [amendPackageJson], lines 328-379, against the mapping [mm] as [main]
    has left it.  Without an own entry, a name that the mapping inherits
    reads a truthy value from the prototype: neither test applies to it
    (its [guessedPaths] is [undefined]), the two bundle names are assigned,
    and [path.relative(binDir, undefined)] inside [srcDirRelative] throws. *)
Definition amendPackageJson (mm : ModulesManifest) (packageJson : string)
    (parsedPackage : PackageJson) (isGeneratedPackageJson : bool) : M string :=
  let packageName := getField "name" parsedPackage in
  match getModule (propertyKey packageName) mm with
  | None =>
      if inheritedProperty (propertyKey packageName)
      then throw (TypeError "path.relative: esm2015_index")
      else
        warnNoModuleData packageName;;
        mret (JSON.stringify parsedPackage)
  | Some moduleData =>
      if guessedPaths moduleData && negb isGeneratedPackageJson &&
         hasExplicitFormatProperties parsedPackage
      then
        warnExplicitFormat;;
        mret (JSON.stringify parsedPackage)
      else
        match packageName, esm2015_index moduleData with
        | None, _ => throw (TypeError "packageName.split")
        | Some _, None => throw (TypeError "path.relative: esm2015_index")
        | Some name, Some esm2015Index =>
            mret (JSON.stringify
                    (setFormatFields packageJson name esm2015Index
                                     (typings moduleData) parsedPackage))
        end
  end.

(** *** Derived files *)

(** [readTypingsAndStripAmdModule], lines 484-489. *)
Definition readTypingsAndStripAmdModule (filePath : string) : M string :=
  content ← fs_readFileSync filePath;
  mret (stripAmdModule H content).

(** The typings path that [rewireMetadata] substitutes, lines 461-467. *)
Definition typingsRelativePath (metadataPath typingsPath : string) : string :=
  let rel := normalizeSeparators (path_relative (Path.dirname metadataPath) typingsPath) in
  let rel := if JS.startsWith rel ".." then rel else "./" +:+ rel in
  JS.replaceFirst rel ".d.ts" "".

(** [rewireMetadata], lines 458-478. *)
Definition rewireMetadata (metadataPath typingsPath : string) : M string :=
  content ← fs_readFileSync metadataPath;
  match rewireExports H content (typingsRelativePath metadataPath typingsPath) with
  | Some rewired => mret rewired
  | None => throw (SyntaxError metadataPath)
  end.

(** The document that [createMetadataReexportFile] serializes. *)
Definition metadataReexport (from importAs : string) : string :=
  "{" +:+ JSON.quote "__symbolic" +:+ ":" +:+ JSON.quote "module" +:+ ","
  +:+ JSON.quote "version" +:+ ":3,"
  +:+ JSON.quote "metadata" +:+ ":{},"
  +:+ JSON.quote "exports" +:+ ":[{" +:+ JSON.quote "from" +:+ ":"
  +:+ JSON.quote from +:+ "}],"
  +:+ JSON.quote "flatModuleIndexRedirect" +:+ ":true,"
  +:+ JSON.quote "importAs" +:+ ":" +:+ JSON.quote importAs +:+ "}".

(** [createMetadataReexportFile], lines 406-418. *)
Definition createMetadataReexportFile (entryPointName metadataFile packageName : string)
  : M unit :=
  let inputPath := Path.join [srcDir P; entryPointName +:+ ".metadata.json"] in
  writeFileFromInputPath inputPath
    (metadataReexport
       (srcDirRelative inputPath (Regex.stripMatchAtEnd ".metadata.json" metadataFile))
       packageName
     +:+ JSON.lineFeed).

(** [typingsFile.replace(/\.d\.tsx?$/, '')] *)
Definition stripTypingsExtension (typingsFile : string) : string :=
  if JS.endsWith typingsFile ".d.ts" then JS.stripSuffix typingsFile ".d.ts"
  else JS.stripSuffix typingsFile ".d.tsx".

(** [createTypingsReexportFile], lines 424-430. *)
Definition createTypingsReexportFile (entryPointName license typingsFile : string)
  : M unit :=
  let inputPath := Path.join [srcDir P; entryPointName +:+ ".d.ts"] in
  let content :=
    license +:+ JSON.lineFeed +:+ "export * from '"
    +:+ srcDirRelative inputPath (stripTypingsExtension typingsFile)
    +:+ "';" +:+ JSON.lineFeed in
  writeFileFromInputPath inputPath content.

(** [createEntryPointPackageJson], lines 438-442. *)
Definition createEntryPointPackageJson (mm : ModulesManifest)
    (dir entryPointPackageName : string) : M unit :=
  let pkgJson := Path.join [srcDir P; dir; "package.json"] in
  content ← amendPackageJson mm pkgJson [("name", entryPointPackageName)] true;
  writeFileFromInputPath pkgJson content.

(** *** The steps of [main] *)

(** The callback of lines 193-216 on one entry: the derived index paths
    are attached, then the metadata file is placed. *)
Definition attachIndexPaths (moduleFiles : ModuleFiles) : ModuleFiles :=
  let relative := path_relative (binDir P) (index moduleFiles) in
  mkModuleFiles (index moduleFiles) (typings moduleFiles) (metadata moduleFiles)
                (guessedPaths moduleFiles)
                (Some (Path.join [binDir P; "esm5"; relative]))
                (Some (Path.join [binDir P; "esm2015"; relative])).

Definition placeMetadata (moduleFiles : ModuleFiles) : M unit :=
  match metadata moduleFiles with
  | Some metadataFile =>
      if JS.truthy metadataFile then
        match dtsBundles P with
        | _ :: _ =>
            metadataContent ← rewireMetadata metadataFile (typings moduleFiles);
            writeFileFromInputPath metadataFile metadataContent
        | [] => copyFileFromInputPath metadataFile
        end
      else mret tt
  | None => mret tt
  end.

Fixpoint indexModules (mm : ModulesManifest) : M ModulesManifest :=
  match mm with
  | [] => mret []
  | (moduleName, moduleFiles) :: mm' =>
      placeMetadata moduleFiles;;
      rest ← indexModules mm';
      mret ((moduleName, attachIndexPaths moduleFiles) :: rest)
  end.

(** The callback of lines 220-229. *)
Definition writeDtsBundle (licenseBanner bundleFile : string) : M unit :=
  let cleanDistPath := JS.replaceFirst bundleFile (dtsBundleFileSuffix P) ".d.ts" in
  typings ← readTypingsAndStripAmdModule bundleFile;
  writeFileFromInputPath cleanDistPath
    (licenseBanner +:+ JSON.lineFeed +:+ stripLicenseComments H typings).

(** What the loop over the sources accumulates, lines 18 and 231-233. *)
Record Progress : Type := mkProgress {
  errorHasOccured : bool;
  rootPackageName : option string;
  packagesWithExistingPackageJson : gset string
}.

(** A source that is the output of another rule, line 236. *)
Definition isBuildOutput (src : string) : bool :=
  JS.includes src (binDir P) || JS.includes src (genfilesDir P).

(** The update of the root package name, lines 255-257: a falsy root is
    replaced whatever the name, otherwise the lengths are compared, which
    throws on an [undefined] name. *)
Definition selectRoot (root packageName : option string) : result (option string) :=
  match root with
  | Some current =>
      if JS.truthy current then
        match packageName with
        | None => Throw (TypeError "packageName.length")
        | Some name =>
            if (String.length name <? String.length current)%nat
            then Ok packageName else Ok root
        end
      else Ok packageName
  | None => Ok packageName
  end.

Definition liftResult {A : Type} (r : result A) : M A :=
  match r with Ok a => mret a | Throw e => throw e end.

(** [packagesWithExistingPackageJson.add(packageName)]; an [undefined]
    member is never looked up and is left out. *)
Definition addPackage (packageName : option string) (known : gset string) : gset string :=
  match packageName with
  | Some name => {[name]} ∪ known
  | None => known
  end.

(** The body of the loop of lines 235-260.  The name is read after the
    amendment, which never assigns it. *)
Definition processSrc (mm : ModulesManifest) (progress : Progress) (src : string)
  : M Progress :=
  (if isBuildOutput src
   then console_error
          ("The " +:+ JSON.quote "srcs"
           +:+ " for ng_package should not include output of other rules. Found:"
           +:+ JSON.lineFeed +:+ "  " +:+ src)
   else mret tt);;
  let failed := errorHasOccured progress || isBuildOutput src in
  content ← fs_readFileSync src;
  if String.eqb (Path.basename src) "package.json" then
    match parseManifest H content with
    | None => throw (SyntaxError src)
    | Some packageJson =>
        amended ← amendPackageJson mm src packageJson false;
        let packageName := getField "name" packageJson in
        root ← liftResult (selectRoot (rootPackageName progress) packageName);
        writeFileFromInputPath src amended;;
        mret (mkProgress failed root
                (addPackage packageName (packagesWithExistingPackageJson progress)))
    end
  else
    writeFileFromInputPath src content;;
    mret (mkProgress failed (rootPackageName progress)
            (packagesWithExistingPackageJson progress)).

(** The callback of lines 263-280 on one entry of the mapping. *)
Definition synthesizeEntryPoint (mm : ModulesManifest) (licenseBanner : string)
    (progress : Progress) (entry : string * ModuleFiles) : M unit :=
  let '(entryPointPackageName, moduleFiles) := entry in
  match rootPackageName progress with
  | None => throw (TypeError "rootPackageName.length")
  | Some root =>
      let entryPointName := JS.substr entryPointPackageName (String.length root + 1) in
      if JS.truthy entryPointName then
        match metadata moduleFiles with
        | Some metadataFilePath =>
            if JS.truthy metadataFilePath
            then createMetadataReexportFile entryPointName metadataFilePath
                   entryPointPackageName
            else mret tt
        | None => mret tt
        end;;
        createTypingsReexportFile entryPointName licenseBanner (typings moduleFiles);;
        if bool_decide (entryPointPackageName ∈ packagesWithExistingPackageJson progress)
        then mret tt
        else createEntryPointPackageJson mm entryPointName entryPointPackageName
      else mret tt
  end.

(** [main], lines 13-282, from the parsed parameters on; the result is
    the exit code. *)
Definition main : M nat :=
  (if JS.truthy (readmeMd P) then copyFile (readmeMd P) (out P) "." else mret tt);;
  forEach (λ file, writeEsmFile file "" "esm2015") (esm2015 P);;
  forEach (λ bundle, copyFile bundle (out P) "bundles") (bundles P);;
  forEach (λ file, copyFile file (out P) "fesm2015") (fesm2015 P);;
  forEach (λ f, content ← readTypingsAndStripAmdModule f;
                writeFileFromInputPath f content) (typeDefinitions P);;
  forEach copyFileFromInputPath (dataFiles P);;
  modulesManifest ← indexModules (modulesManifestArg P);
  licenseBanner ← (if JS.truthy (licenseFile P)
                   then fs_readFileSync (licenseFile P) else mret "");
  forEach (writeDtsBundle licenseBanner) (dtsBundles P);;
  progress ← foldM (processSrc modulesManifest) (mkProgress false (Some "") ∅) (srcs P);
  forEach (synthesizeEntryPoint modulesManifest licenseBanner progress) modulesManifest;;
  mret (if errorHasOccured progress then 1 else 0).

End Packager.

(** The root package name after manifests with the given names have been
    read in turn: the update of lines 255-257, iterated. *)
Fixpoint selectRoots (root : option string) (names : list (option string))
  : result (option string) :=
  match names with
  | [] => Ok root
  | name :: names' =>
      match selectRoot root name with
      | Ok root' => selectRoots root' names'
      | Throw e => Throw e
      end
  end.

(** The names of the manifests that the loop over the sources reads, in
    the order of the sources: it is the loop of lines 235-260 replayed. *)
Fixpoint manifestNames (H : Host) (P : Params) (mm : ModulesManifest)
    (progress : Progress) (sources : list string) (st : State)
  : list (option string) :=
  match sources with
  | [] => []
  | src :: sources' =>
      match processSrc H P mm progress src st with
      | Ok (progress', st') =>
          (if String.eqb (Path.basename src) "package.json"
           then match files st !! fileKey H src ≫= parseManifest H with
                | Some packageJson => [getField "name" packageJson]
                | None => []
                end
           else [])
          ++ manifestNames H P mm progress' sources' st'
      | Throw _ => []
      end
  end.

(** ** A sample package *)

Module Sample.

Definition rootManifest : PackageJson :=
  [("name", "@angular/common"); ("version", "0.0.0")].

Definition httpManifest : PackageJson :=
  [("name", "@angular/common/http"); ("main", "./custom.js")].

Definition namelessManifest : PackageJson := [("name", "")].

(** [JSON.parse] on the manifests of the sample. *)
Definition parse (text : string) : option PackageJson :=
  if String.eqb text (JSON.stringify rootManifest) then Some rootManifest
  else if String.eqb text (JSON.stringify httpManifest) then Some httpManifest
  else if String.eqb text (JSON.stringify namelessManifest) then Some namelessManifest
  else None.

Definition host : Host :=
  mkHost "/execroot" parse (λ text, text) (λ text, text) (λ text _, Some text).

Definition bin : string := "bazel-out/bin/packages/common".

Definition modules : ModulesManifest :=
  [("@angular/common",
    mkModuleFiles (bin +:+ "/common.js") (bin +:+ "/common.d.ts")
                  (Some (bin +:+ "/common.metadata.json")) false None None);
   ("@angular/common/http",
    mkModuleFiles (bin +:+ "/http/http.js") (bin +:+ "/http/http.d.ts")
                  (Some (bin +:+ "/http/http.metadata.json")) false None None);
   ("@angular/common/testing",
    mkModuleFiles (bin +:+ "/testing/testing.js") (bin +:+ "/testing/testing.d.ts")
                  None true None None)].

Definition params (sources : list string) : Params :=
  mkParams "dist/common" "packages/common" bin "bazel-out/genfiles/packages/common"
           modules "" [bin +:+ "/fesm2015/common.js"; bin +:+ "/fesm2015/http__testing.js"]
           [] [] [] [bin +:+ "/bundles/common.umd.js"] sources [] [] "" [] "".

Definition sourceMapComment : string := "//# sourceMappingURL=http__testing.js.map".

Definition disk : gmap string string :=
  list_to_map
    [("/execroot/packages/common/package.json", JSON.stringify rootManifest);
     ("/execroot/packages/common/http/package.json", JSON.stringify httpManifest);
     ("/execroot/packages/common/nameless/package.json", JSON.stringify namelessManifest);
     ("/execroot/packages/common/NOTICE", "notice");
     ("/execroot/" +:+ bin +:+ "/generated.txt", "generated");
     ("/execroot/" +:+ bin +:+ "/common.metadata.json", "{}");
     ("/execroot/" +:+ bin +:+ "/http/http.metadata.json", "{}");
     ("/execroot/" +:+ bin +:+ "/bundles/common.umd.js", "umd");
     ("/execroot/" +:+ bin +:+ "/fesm2015/common.js", "fesm");
     ("/execroot/" +:+ bin +:+ "/fesm2015/http__testing.js", sourceMapComment)].

Definition start : State := mkState disk [].

(** The mapping of the sample once [main] has attached the index paths. *)
Definition indexed : ModulesManifest :=
  map (prod_map id (attachIndexPaths host (params []))) modules.

Definition sources : list string :=
  ["packages/common/package.json"; "packages/common/http/package.json";
   "packages/common/NOTICE"].

End Sample.

(** The exit code of a finished run. *)
Definition exitCode (r : result (nat * State)) : option nat :=
  match r with Ok (code, _) => Some code | Throw _ => None end.

(** The final state of a finished run. *)
Definition finalState {A : Type} (r : result (A * State)) : option State :=
  match r with Ok (_, st) => Some st | Throw _ => None end.

Definition fileAfter {A : Type} (r : result (A * State)) (key : string) : option string :=
  st ← finalState r; files st !! key.

(** A computation that, when it returns, has only added events. *)
Definition extends {A : Type} (m : M A) : Prop :=
  ∀ st a st', m st = Ok (a, st') → events st `suffix_of` events st'.

Create HintDb extends.
Create HintDb keeps.

(** A computation that, when it returns, has removed no file. *)
Definition keeps {A : Type} (m : M A) : Prop :=
  ∀ st a st' key, m st = Ok (a, st') →
    is_Some (files st !! key) → is_Some (files st' !! key).


(** The state that [writeFileFromInputPath] leaves: the content at the
    output path of the input path, and the event of the write. *)
Definition afterWrite (H : Host) (P : Params) (inputPath content : string) (st : State)
  : State :=
  mkState (<[fileKey H (outputPathOf H P inputPath) := content]> (files st))
          (Written (fileKey H (outputPathOf H P inputPath)) :: events st).

(** ** Vocabulary of the properties *)

(** The number of occurrences of a character in a string. *)
Fixpoint countChar (c : ascii) (s : string) : nat :=
  match s with
  | EmptyString => 0
  | String a s' => (if Ascii.eqb a c then 1 else 0) + countChar c s'
  end.

(** A string without the path separator. *)
Definition slashFree (s : string) : bool :=
  forallb (λ c, negb (Path.isSlash c)) (list_ascii_of_string s).

(** A path segment that normalization keeps as it is. *)
Definition plainSegment (s : string) : bool :=
  slashFree s && negb (String.eqb s "") && negb (String.eqb s ".")
  && negb (String.eqb s "..").

(** A line holds a match of the pattern at some position. *)
Fixpoint matchesSomewhere (pat line : string) : bool :=
  Regex.matchesAt pat line ||
  match line with
  | EmptyString => false
  | String _ line' => matchesSomewhere pat line'
  end.

(** A string without a line feed. *)
Definition lineFeedFree (s : string) : bool :=
  forallb (λ c, negb (Ascii.eqb c Regex.newline)) (list_ascii_of_string s).

(** The value of a finished computation. *)
Definition returned {A : Type} (r : result (A * State)) : option A :=
  match r with Ok (a, _) => Some a | Throw _ => None end.

(** ** A manifest without a name *)

Module Stray.

Definition manifest : PackageJson := [("version", "1.0.0")].

Definition parse (text : string) : option PackageJson :=
  if String.eqb text (JSON.stringify manifest) then Some manifest else None.

Definition host : Host :=
  mkHost "/execroot" parse (λ text, text) (λ text, text) (λ text _, Some text).

Definition start : State :=
  mkState {[ "/execroot/packages/common/stray/package.json" := JSON.stringify manifest ]} [].

End Stray.

(** * Properties *)

(** ** Strings *)

Section StringFacts.

Lemma append_nil (t : string) : "" +:+ t = t.
Proof. done. Qed.

Lemma append_cons (c : ascii) (s t : string) : String c s +:+ t = String c (s +:+ t).
Proof. done. Qed.

Lemma length_append (s t : string) :
  String.length (s +:+ t) = String.length s + String.length t.
Proof. induction s as [|c s IH]; simpl; [done | by rewrite IH]. Qed.

Lemma substr_append (s t : string) : JS.substr (s +:+ t) (String.length s) = t.
Proof. induction s as [|c s IH]; simpl; [by destruct t | done]. Qed.

Lemma list_ascii_append (s t : string) :
  list_ascii_of_string (s +:+ t) = list_ascii_of_string s ++ list_ascii_of_string t.
Proof. induction s as [|c s IH]; simpl; [done | by rewrite IH]. Qed.

Lemma startsWith_empty (s : string) : JS.startsWith s "" = true.
Proof. by destruct s. Qed.

Lemma replaceChar_absent (c d : ascii) (s : string) :
  c ≠ d → c ∉ list_ascii_of_string (JS.replaceChar c d s).
Proof.
  intros Hcd. induction s as [|a s IH]; simpl.
  - apply not_elem_of_nil.
  - apply not_elem_of_cons. split; [|done].
    destruct (Ascii.eqb_spec a c); congruence.
Qed.

(** Replacing backslashes neither makes nor breaks a leading [..]. *)
Lemma normalizeSeparators_startsWith_dots (s : string) :
  JS.startsWith (normalizeSeparators s) ".." = JS.startsWith s "..".
Proof.
  unfold normalizeSeparators, JS.backslash.
  destruct s as [|a [|b s]]; cbn [JS.startsWith JS.replaceChar]; try done.
  - by destruct (Ascii.eqb_spec a "\"%char) as [->|].
  - destruct (Ascii.eqb_spec a "\"%char) as [->|]; [done|].
    destruct (Ascii.eqb "." a); [|done].
    rewrite !startsWith_empty.
    by destruct (Ascii.eqb_spec b "\"%char) as [->|].
Qed.

End StringFacts.

(** ** Bundle names *)

(** C3, as the specification states it, fails: each of the three worked
    examples of the specification names a path that [getBundleName] does
    not return. *)
Lemma getBundleName_spec_examples_fail :
  getBundleName "@scope/foo/bar" "bundles" ≠ "../bundles/scope-foo-bar.umd.js" ∧
  getBundleName "@angular/common/http" "bundles" ≠ "../../bundles/common-http.umd.js" ∧
  getBundleName "@angular/common" "bundles" ≠ "../bundles/common.umd.js".
Proof. by vm_compute. Qed.

(** C3, amended: the scope segment is dropped from the bundle's base name
    as well, and the path climbs one level per remaining segment but the
    first, so that the three examples evaluate to
    [../bundles/foo-bar.umd.js], [../bundles/common-http.umd.js] and
    [./bundles/common.umd.js]. *)
Theorem getBundleName_examples :
  getBundleName "@scope/foo/bar" "bundles" = "../bundles/foo-bar.umd.js" ∧
  getBundleName "@angular/common/http" "bundles" = "../bundles/common-http.umd.js" ∧
  getBundleName "@angular/common" "bundles" = "./bundles/common.umd.js".
Proof. by vm_compute. Qed.

(** The example of the comment above [getBundleName], lines 381-382. *)
Example getBundleName_source_comment :
  getBundleName "@angular/common/http/testing" "bundles"
    = "../../bundles/common-http-testing.umd.js" ∧
  getBundleName "@angular/common/http/testing" "fesm5" = "../../fesm5/http/testing.js".
Proof. by vm_compute. Qed.

(** ** Relative references *)

(** C4: the result of [srcDirRelative] holds no backslash, and it is the
    normalized relative path itself when that path starts with [..] and
    the normalized path behind [./] otherwise. *)
Theorem srcDirRelative_forward_slashes (H : Host) (P : Params) (from file : string) :
  (JS.backslash ∉ list_ascii_of_string (srcDirRelative H P from file)) ∧
  srcDirRelative H P from file =
    (if JS.startsWith (srcDirRelativeRaw H P from file) ".."
     then normalizeSeparators (srcDirRelativeRaw H P from file)
     else "./" +:+ normalizeSeparators (srcDirRelativeRaw H P from file)).
Proof.
  unfold srcDirRelative. rewrite normalizeSeparators_startsWith_dots.
  split; [|done].
  destruct (JS.startsWith _ _).
  - by apply replaceChar_absent.
  - unfold JS.backslash. rewrite list_ascii_append. apply not_elem_of_app. split.
    + simpl. rewrite !not_elem_of_cons. split_and!; [done..|apply not_elem_of_nil].
    + by apply replaceChar_absent.
Qed.

(** ** Path re-rooting *)

(** C1, as the specification states it, fails: a path under none of the
    three trees is written all the same. *)
Lemma writeFileFromInputPath_unknown_tree_is_written :
  let P := Sample.params [] in
  JS.includes "third_party/LICENSE" (srcDir P) = false ∧
  JS.includes "third_party/LICENSE" (binDir P) = false ∧
  JS.includes "third_party/LICENSE" (genfilesDir P) = false ∧
  fileAfter (writeFileFromInputPath Sample.host P "third_party/LICENSE" "MIT" Sample.start)
            "/execroot/third_party/LICENSE" = Some "MIT".
Proof. by vm_compute. Qed.

(** C1, amended: the source tree is the default of the classification.  A
    path that contains neither the intermediate-build directory nor the
    generated-files directory is relativized against the source directory,
    whether it lies under it or not, and its content is written. *)
Theorem writeFileFromInputPath_defaults_to_srcDir
    (H : Host) (P : Params) (inputPath content : string) (st : State) :
  JS.includes inputPath (binDir P) = false →
  JS.includes inputPath (genfilesDir P) = false →
  let target := fileKey H (Path.join [out P; Path.relative (cwd H) (srcDir P) inputPath]) in
  writeFileFromInputPath H P inputPath content st
    = Ok (tt, mkState (<[target := content]> (files st)) (Written target :: events st)).
Proof.
  intros Hbin Hgen. unfold writeFileFromInputPath, outputPathOf, rootDirOf.
  by rewrite Hbin, Hgen.
Qed.

Lemma writeFileFromInputPath_defaults_to_srcDir_witness :
  let P := Sample.params [] in
  let target := "/execroot/dist/common/NOTICE" in
  JS.includes "packages/common/NOTICE" (binDir P) = false ∧
  JS.includes "packages/common/NOTICE" (genfilesDir P) = false ∧
  writeFileFromInputPath Sample.host P "packages/common/NOTICE" "notice" Sample.start
    = Ok (tt, mkState (<[target := "notice"]> Sample.disk) [Written target]).
Proof.
  split_and!; [reflexivity..|].
  apply (writeFileFromInputPath_defaults_to_srcDir
           Sample.host (Sample.params []) "packages/common/NOTICE" "notice" Sample.start);
    reflexivity.
Defined.

(** ** Manifest amendment *)

Section ManifestFacts.

Lemma getField_setField_eq (key value : string) (pkg : PackageJson) :
  getField key (setField key value pkg) = Some value.
Proof.
  induction pkg as [|[k v] pkg IH]; simpl.
  - by rewrite String.eqb_refl.
  - destruct (String.eqb k key) eqn:E; simpl; by rewrite E.
Qed.

Lemma getField_setField_ne (key value k : string) (pkg : PackageJson) :
  k ≠ key → getField k (setField key value pkg) = getField k pkg.
Proof.
  intros Hne. induction pkg as [|[k' v'] pkg IH]; simpl.
  - destruct (String.eqb_spec key k); congruence.
  - destruct (String.eqb_spec k' key) as [->|]; simpl.
    + destruct (String.eqb_spec key k); congruence.
    + by rewrite IH.
Qed.

Lemma getField_setField_is_Some (key value k : string) (pkg : PackageJson) :
  is_Some (getField k pkg) → is_Some (getField k (setField key value pkg)).
Proof.
  intros Hk. destruct (decide (k = key)) as [->|Hne].
  - rewrite getField_setField_eq. eauto.
  - by rewrite getField_setField_ne.
Qed.

(** Assigning a format field leaves the other fields where they are. *)
Lemma filter_setField (key value : string) (pkg : PackageJson) :
  isKnownFormatField key = true →
  filter (λ kv, isKnownFormatField kv.1 = false) (setField key value pkg)
    = filter (λ kv, isKnownFormatField kv.1 = false) pkg.
Proof.
  intros Hkey. induction pkg as [|[k v] pkg IH]; cbn [setField].
  - rewrite filter_cons_False; [done | by simpl; rewrite Hkey].
  - destruct (String.eqb_spec k key) as [->|].
    + by rewrite !filter_cons_False by (by simpl; rewrite Hkey).
    + rewrite !filter_cons. by rewrite IH.
Qed.

Lemma isKnownFormatField_false (k key : string) :
  isKnownFormatField k = false → isKnownFormatField key = true → k ≠ key.
Proof. intros Hk Hkey ->. congruence. Qed.

End ManifestFacts.

(** C5: a manifest whose name has no entry in the mapping is reported by
    three diagnostics and returned serialized as it is, the file system
    untouched and nothing thrown, unless the name is one that the mapping
    inherits from [Object.prototype]: there the read of line 332 finds the
    inherited value, no diagnostic is given and the amendment throws. *)
Theorem amendPackageJson_without_module_data
    (H : Host) (P : Params) (mm : ModulesManifest) (packageJson : string)
    (parsedPackage : PackageJson) (isGeneratedPackageJson : bool)
    (name : string) (st : State) :
  getField "name" parsedPackage = Some name →
  getModule name mm = None →
  amendPackageJson H P mm packageJson parsedPackage isGeneratedPackageJson st
    = if inheritedProperty name
      then Throw (TypeError "path.relative: esm2015_index")
      else Ok (JSON.stringify parsedPackage,
               mkState (files st)
                 (Logged "   The ng_module for this package is possibly missing the module_name attribute "
                  :: Logged "   Not updating the package.json file to point to it"
                  :: Logged ("WARNING: no module metadata for package " +:+ name)
                  :: events st)).
Proof.
  intros Hname Hmodule. unfold amendPackageJson.
  rewrite Hname. change (propertyKey (Some name)) with name. rewrite Hmodule.
  by destruct (inheritedProperty name).
Qed.

Lemma amendPackageJson_without_module_data_witness :
  let pkg := [("name", "constructor"); ("version", "0.0.0")] in
  getField "name" pkg = Some "constructor" ∧
  getModule "constructor" Sample.modules = None ∧
  amendPackageJson Sample.host (Sample.params []) Sample.modules
      "packages/constructor/package.json" pkg false Sample.start
    = Throw (TypeError "path.relative: esm2015_index").
Proof.
  split_and!; [reflexivity..|].
  exact (amendPackageJson_without_module_data Sample.host (Sample.params [])
           Sample.modules "packages/constructor/package.json"
           [("name", "constructor"); ("version", "0.0.0")] false
           "constructor" Sample.start eq_refl eq_refl).
Defined.

(** The package of the comment of lines 341-343, which is no [ng_module]
    and has no entry, is reported and left as it is. *)
Example amendPackageJson_compiler_reported :
  let pkg := [("name", "@angular/compiler"); ("version", "0.0.0")] in
  amendPackageJson Sample.host (Sample.params []) Sample.modules
      "packages/compiler/package.json" pkg false Sample.start
    = Ok (JSON.stringify pkg,
          mkState Sample.disk
            [Logged "   The ng_module for this package is possibly missing the module_name attribute ";
             Logged "   Not updating the package.json file to point to it";
             Logged "WARNING: no module metadata for package @angular/compiler"]).
Proof. reflexivity. Qed.

(** C2, as the specification states it, fails: an explicit format field of
    a checked-in manifest is overwritten when the module entry is not
    marked as path-guessed. *)
Lemma amendPackageJson_overrides_explicit_main :
  hasExplicitFormatProperties Sample.httpManifest = true ∧
  getField "main" Sample.httpManifest = Some "./custom.js" ∧
  amendPackageJson Sample.host (Sample.params []) Sample.indexed
      "packages/common/http/package.json" Sample.httpManifest false Sample.start
    = Ok (JSON.stringify
            [("name", "@angular/common/http");
             ("main", "../bundles/common-http.umd.js");
             ("fesm2015", "../fesm2015/http.js");
             ("esm2015", "../esm2015/http/http.js");
             ("typings", "./http.d.ts");
             ("module", "../fesm2015/http.js");
             ("es2015", "../fesm2015/http.js")],
          Sample.start).
Proof. split_and!; reflexivity. Qed.

(** C2, amended: the amendment is skipped for a manifest with an explicit
    format field that is not generated only if its module entry is marked
    as path-guessed ([guessedPaths]); the manifest is then reported by
    three diagnostics and returned serialized as it is. *)
Theorem amendPackageJson_skips_guessed_explicit
    (H : Host) (P : Params) (mm : ModulesManifest) (packageJson : string)
    (parsedPackage : PackageJson) (name : string) (moduleData : ModuleFiles)
    (st : State) :
  hasExplicitFormatProperties parsedPackage = true →
  getField "name" parsedPackage = Some name →
  getModule name mm = Some moduleData →
  guessedPaths moduleData = true →
  amendPackageJson H P mm packageJson parsedPackage false st
    = Ok (JSON.stringify parsedPackage,
          mkState (files st)
            (Logged "    Ignore this warning if explicit properties are set intentionally."
             :: Logged "    Skipping automatic insertion of format properties as explicit format properties are set."
             :: Logged "WARNING: `package.json` explicitly sets format properties (like `main`)."
             :: events st)).
Proof.
  intros Hexplicit Hname Hmodule Hguessed. unfold amendPackageJson.
  rewrite Hname. simpl. by rewrite Hmodule, Hguessed, Hexplicit.
Qed.

Lemma amendPackageJson_skips_guessed_explicit_witness :
  let pkg := [("name", "@angular/common/testing"); ("typings", "./index.d.ts")] in
  let moduleData :=
    mkModuleFiles (Sample.bin +:+ "/testing/testing.js")
                  (Sample.bin +:+ "/testing/testing.d.ts") None true None None in
  hasExplicitFormatProperties pkg = true ∧
  getField "name" pkg = Some "@angular/common/testing" ∧
  getModule "@angular/common/testing" Sample.modules = Some moduleData ∧
  guessedPaths moduleData = true ∧
  amendPackageJson Sample.host (Sample.params []) Sample.modules
      "packages/common/testing/package.json" pkg false Sample.start
    = Ok (JSON.stringify pkg,
          mkState Sample.disk
            [Logged "    Ignore this warning if explicit properties are set intentionally.";
             Logged "    Skipping automatic insertion of format properties as explicit format properties are set.";
             Logged "WARNING: `package.json` explicitly sets format properties (like `main`)."]).
Proof.
  split_and!; [reflexivity..|].
  eapply (amendPackageJson_skips_guessed_explicit Sample.host (Sample.params [])
            Sample.modules "packages/common/testing/package.json"
            [("name", "@angular/common/testing"); ("typings", "./index.d.ts")]
            "@angular/common/testing"); reflexivity.
Defined.

Section FormatFieldFacts.

Variables (H : Host) (P : Params).
Variables (packageJson packageName esm2015Index typingsFile : string).

Let amended (parsedPackage : PackageJson) : PackageJson :=
  setFormatFields H P packageJson packageName esm2015Index typingsFile parsedPackage.

Lemma setFormatFields_unfold (parsedPackage : PackageJson) :
  amended parsedPackage =
    setField "es2015" (getBundleName packageName "fesm2015")
      (setField "module" (getBundleName packageName "fesm2015")
         (setField "typings" (srcDirRelative H P packageJson typingsFile)
            (setField "esm2015" (srcDirRelative H P packageJson esm2015Index)
               (setField "fesm2015" (getBundleName packageName "fesm2015")
                  (setField "main" (getBundleName packageName "bundles")
                     parsedPackage))))).
Proof.
  unfold amended, setFormatFields.
  rewrite !getField_setField_ne by done. rewrite getField_setField_eq. simpl.
  rewrite !getField_setField_ne by done. by rewrite getField_setField_eq.
Qed.

Lemma setFormatFields_other (parsedPackage : PackageJson) (k : string) :
  isKnownFormatField k = false →
  getField k (amended parsedPackage) = getField k parsedPackage.
Proof.
  intros Hk. rewrite setFormatFields_unfold.
  by rewrite !getField_setField_ne by (by apply isKnownFormatField_false).
Qed.

Lemma setFormatFields_keeps (parsedPackage : PackageJson) (k : string) :
  is_Some (getField k parsedPackage) → is_Some (getField k (amended parsedPackage)).
Proof.
  intros Hk. rewrite setFormatFields_unfold.
  by do 6 apply getField_setField_is_Some.
Qed.

Lemma setFormatFields_filter (parsedPackage : PackageJson) :
  filter (λ kv, isKnownFormatField kv.1 = false) (amended parsedPackage)
    = filter (λ kv, isKnownFormatField kv.1 = false) parsedPackage.
Proof. rewrite setFormatFields_unfold. by rewrite !filter_setField by done. Qed.

End FormatFieldFacts.

(** C9: when the amendment is performed, the serialized manifest is that
    of the input with format fields assigned: every field that is not one
    of the six format fields, [name] among them, has its value and its
    place among the other fields, no field of the input is missing, and
    neither the file system nor the log changes. *)
Theorem amendPackageJson_frame
    (H : Host) (P : Params) (mm : ModulesManifest) (packageJson : string)
    (parsedPackage : PackageJson) (isGeneratedPackageJson : bool)
    (name esm2015Index : string) (moduleData : ModuleFiles) (st : State) :
  getField "name" parsedPackage = Some name →
  getModule name mm = Some moduleData →
  guessedPaths moduleData && negb isGeneratedPackageJson
    && hasExplicitFormatProperties parsedPackage = false →
  esm2015_index moduleData = Some esm2015Index →
  ∃ amended : PackageJson,
    amendPackageJson H P mm packageJson parsedPackage isGeneratedPackageJson st
      = Ok (JSON.stringify amended, st) ∧
    getField "name" amended = Some name ∧
    (∀ k, isKnownFormatField k = false → getField k amended = getField k parsedPackage) ∧
    (∀ k, is_Some (getField k parsedPackage) → is_Some (getField k amended)) ∧
    filter (λ kv, isKnownFormatField kv.1 = false) amended
      = filter (λ kv, isKnownFormatField kv.1 = false) parsedPackage.
Proof.
  intros Hname Hmodule Hskip Hindex.
  exists (setFormatFields H P packageJson name esm2015Index (typings moduleData) parsedPackage).
  split_and!.
  - unfold amendPackageJson. rewrite Hname. simpl. rewrite Hmodule, Hskip, Hindex.
    by destruct st.
  - by rewrite setFormatFields_other.
  - intros k Hk. by apply setFormatFields_other.
  - intros k Hk. by apply setFormatFields_keeps.
  - apply setFormatFields_filter.
Qed.

Lemma amendPackageJson_frame_witness :
  ∃ amended : PackageJson,
    amendPackageJson Sample.host (Sample.params []) Sample.indexed
        "packages/common/package.json"
        Sample.rootManifest false Sample.start
      = Ok (JSON.stringify amended, Sample.start) ∧
    getField "name" amended = Some "@angular/common" ∧
    (∀ k, isKnownFormatField k = false →
          getField k amended = getField k Sample.rootManifest) ∧
    (∀ k, is_Some (getField k Sample.rootManifest) → is_Some (getField k amended)) ∧
    filter (λ kv, isKnownFormatField kv.1 = false) amended
      = filter (λ kv, isKnownFormatField kv.1 = false) Sample.rootManifest.
Proof.
  eapply (amendPackageJson_frame Sample.host (Sample.params []) _
            "packages/common/package.json" Sample.rootManifest false
            "@angular/common"); reflexivity.
Defined.

(** ** Root-package detection *)

Section RootFacts.

Implicit Types (root name : string) (names : list string).

Lemma truthy_nonempty (s : string) : s ≠ "" → JS.truthy s = true.
Proof. by destruct s. Qed.

(** From a non-empty root on, the root only changes to a strictly
    shorter name, and it ends as the first of the shortest names met if
    one of them is shorter than it. *)
Lemma selectRoots_from root names :
  root ≠ "" →
  Forall (λ n, n ≠ "") names →
  ∃ root',
    selectRoots (Some root) (Some <$> names) = Ok (Some root') ∧
    ((root' = root ∧ Forall (λ n, String.length root ≤ String.length n) names) ∨
     (String.length root' < String.length root ∧
      ∃ before after,
        names = before ++ root' :: after ∧
        Forall (λ n, String.length root' < String.length n) before ∧
        Forall (λ n, String.length root' ≤ String.length n) after)).
Proof.
  intros Hroot Hnames. revert root Hroot.
  induction Hnames as [|name names Hname Hnames IH]; intros root Hroot.
  - exists root. split; [done|]. left. by split.
  - cbn [fmap list_fmap selectRoots selectRoot]. rewrite truthy_nonempty by done.
    destruct (Nat.ltb_spec (String.length name) (String.length root)) as [Hlt|Hge].
    + destruct (IH name Hname) as (root' & -> & Hcases). exists root'. split; [done|].
      right. destruct Hcases as [[-> Hall]|(Hlt' & before & after & -> & Hb & Ha)].
      * split; [done|]. exists [], names. by split_and!.
      * split; [lia|]. exists (name :: before), after. split_and!; [done| |done].
        by constructor.
    + destruct (IH root Hroot) as (root' & -> & Hcases). exists root'. split; [done|].
      destruct Hcases as [[-> Hall]|(Hlt' & before & after & -> & Hb & Ha)].
      * left. split; [done|]. by constructor.
      * right. split; [done|]. exists (name :: before), after. split_and!; [done| |done].
        constructor; [lia|done].
Qed.

End RootFacts.

(** C10, as stated, fails: an empty manifest name resets the detection,
    and the root of the sample ends as [@angular/common/http] although
    the shorter [@angular/common] was met first. *)
Lemma rootPackageName_not_shortest :
  let sources := ["packages/common/package.json";
                  "packages/common/nameless/package.json";
                  "packages/common/http/package.json"] in
  let loop := foldM (processSrc Sample.host (Sample.params sources) Sample.indexed)
                    (mkProgress false (Some "") ∅) sources Sample.start in
  manifestNames Sample.host (Sample.params sources) Sample.indexed
      (mkProgress false (Some "") ∅) sources Sample.start
    = [Some "@angular/common"; Some ""; Some "@angular/common/http"] ∧
  match loop with
  | Ok (progress, _) => rootPackageName progress
  | Throw _ => None
  end = Some "@angular/common/http" ∧
  String.length "@angular/common" < String.length "@angular/common/http".
Proof. split_and!; [by vm_compute..|]. vm_compute. lia. Qed.

(** C10, amended: when no manifest name is empty, the detection keeps the
    first of the names of minimum length: every earlier name is strictly
    longer and no later name is shorter.  (An empty root stands for "none
    yet" and gives way to the next name whatever its length.) *)
Theorem rootPackageName_first_shortest (first : string) (others : list string) :
  Forall (λ n, n ≠ "") (first :: others) →
  ∃ root before after,
    selectRoots (Some "") (Some <$> first :: others) = Ok (Some root) ∧
    first :: others = before ++ root :: after ∧
    Forall (λ n, String.length root < String.length n) before ∧
    Forall (λ n, String.length root ≤ String.length n) after.
Proof.
  intros Hnames. apply Forall_cons in Hnames as [Hfirst Hothers].
  destruct (selectRoots_from first others Hfirst Hothers) as (root & Hrun & Hcases).
  exists root. cbn [fmap list_fmap selectRoots selectRoot JS.truthy JS.isEmpty negb].
  destruct Hcases as [[-> Hall]|(Hlt & before & after & -> & Hb & Ha)].
  - exists [], others. by split_and!.
  - exists (first :: before), after. split_and!; [done..| |done]. by constructor.
Qed.

Lemma rootPackageName_first_shortest_witness :
  Forall (λ n, n ≠ "") ["@angular/common/http"; "@angular/common"; "@angular/router"] ∧
  ∃ root before after,
    selectRoots (Some "")
        (Some <$> ["@angular/common/http"; "@angular/common"; "@angular/router"])
      = Ok (Some root) ∧
    ["@angular/common/http"; "@angular/common"; "@angular/router"]
      = before ++ root :: after ∧
    Forall (λ n, String.length root < String.length n) before ∧
    Forall (λ n, String.length root ≤ String.length n) after.
Proof.
  split.
  - repeat constructor; discriminate.
  - apply (rootPackageName_first_shortest
             "@angular/common/http" ["@angular/common"; "@angular/router"]).
    repeat constructor; discriminate.
Defined.

(** ** Running the effects *)

Section RunFacts.

Context (H : Host) (P : Params).

Lemma bind_run {A B : Type} (m : M A) (f : A → M B) (st : State) :
  (m ≫= f) st = match m st with Ok (a, st') => f a st' | Throw e => Throw e end.
Proof. done. Qed.

Lemma ret_run {A : Type} (a : A) (st : State) : mret (M := M) a st = Ok (a, st).
Proof. done. Qed.

Lemma writeFileFromInputPath_run (inputPath content : string) (st : State) :
  writeFileFromInputPath H P inputPath content st
    = Ok (tt, mkState (<[fileKey H (outputPathOf H P inputPath) := content]> (files st))
                      (Written (fileKey H (outputPathOf H P inputPath)) :: events st)).
Proof. done. Qed.

Lemma substr_plus (s : string) (n m : nat) :
  JS.substr s (n + m) = JS.substr (JS.substr s n) m.
Proof.
  revert s. induction n as [|n IH]; intros s; [done|].
  destruct s as [|c s]; simpl; [by destruct m | apply IH].
Qed.

Lemma substr_all (s : string) (n : nat) : String.length s ≤ n → JS.substr s n = "".
Proof.
  revert n. induction s as [|c s IH]; intros n Hn; [by destruct n|].
  destruct n as [|n]; simpl in *; [lia | apply IH; lia].
Qed.

(** The local name of an entry point below the root. *)
Lemma entryPointName_below (root name : string) :
  JS.substr (root +:+ "/" +:+ name) (String.length root + 1) = name.
Proof. by rewrite substr_plus, substr_append. Qed.

(** The manifest of a generated entry point is always amended. *)
Lemma amendPackageJson_generated (mm : ModulesManifest) (packageJson name esm : string)
    (moduleFiles : ModuleFiles) (st : State) :
  getModule name mm = Some moduleFiles →
  esm2015_index moduleFiles = Some esm →
  amendPackageJson H P mm packageJson [("name", name)] true st
    = Ok (JSON.stringify
            (setFormatFields H P packageJson name esm (typings moduleFiles)
                             [("name", name)]), st).
Proof.
  intros Hmodule Hindex. unfold amendPackageJson.
  cbn [getField]. rewrite String.eqb_refl.
  change (propertyKey (Some name)) with name.
  rewrite Hmodule, Hindex. cbn [negb]. rewrite andb_false_r. by destruct st.
Qed.

Lemma writeFileFromInputPath_afterWrite (inputPath content : string) (st : State) :
  writeFileFromInputPath H P inputPath content st
    = Ok (tt, afterWrite H P inputPath content st).
Proof. done. Qed.

(** The turn of the synthesis for an entry with a local name: up to three
    files are written one after the other. *)
Lemma synthesizeEntryPoint_run (mm : ModulesManifest) (licenseBanner : string)
    (progress : Progress) (root entry esm : string) (moduleFiles : ModuleFiles)
    (st : State) :
  rootPackageName progress = Some root →
  JS.truthy (JS.substr entry (String.length root + 1)) = true →
  getModule entry mm = Some moduleFiles →
  esm2015_index moduleFiles = Some esm →
  let name := JS.substr entry (String.length root + 1) in
  let metadataPath := Path.join [srcDir P; name +:+ ".metadata.json"] in
  let typingsPath := Path.join [srcDir P; name +:+ ".d.ts"] in
  let manifestPath := Path.join [srcDir P; name; "package.json"] in
  let st1 :=
    match metadata moduleFiles with
    | Some file =>
        if JS.truthy file
        then afterWrite H P metadataPath
               (metadataReexport
                  (srcDirRelative H P metadataPath
                     (Regex.stripMatchAtEnd ".metadata.json" file)) entry
                +:+ JSON.lineFeed) st
        else st
    | None => st
    end in
  let st2 :=
    afterWrite H P typingsPath
      (licenseBanner +:+ JSON.lineFeed +:+ "export * from '"
       +:+ srcDirRelative H P typingsPath (stripTypingsExtension (typings moduleFiles))
       +:+ "';" +:+ JSON.lineFeed) st1 in
  let st3 :=
    if bool_decide (entry ∈ packagesWithExistingPackageJson progress) then st2
    else afterWrite H P manifestPath
           (JSON.stringify
              (setFormatFields H P manifestPath entry esm (typings moduleFiles)
                               [("name", entry)])) st2 in
  synthesizeEntryPoint H P mm licenseBanner progress (entry, moduleFiles) st
    = Ok (tt, st3).
Proof.
  intros Hroot Htruthy Hmodule Hindex. cbv zeta.
  unfold synthesizeEntryPoint. rewrite Hroot. cbv zeta. rewrite Htruthy.
  unfold createMetadataReexportFile, createTypingsReexportFile,
    createEntryPointPackageJson.
  rewrite bind_run.
  destruct (metadata moduleFiles) as [file|]; [destruct (JS.truthy file)|];
    rewrite ?ret_run, ?writeFileFromInputPath_afterWrite;
    rewrite bind_run, writeFileFromInputPath_afterWrite;
    (case_bool_decide;
     [by rewrite ret_run
     |rewrite bind_run, (amendPackageJson_generated mm _ _ esm moduleFiles) by done;
      by rewrite writeFileFromInputPath_afterWrite]).
Qed.

End RunFacts.

(** ** Entry-point synthesis *)

(** C7: for an entry whose name is the root name, a slash and a non-empty
    local name, the files produced are, one after the other, the metadata
    re-export exactly when the entry has a metadata path, the typings
    re-export always, and the manifest exactly when no source manifest
    carried the entry's name: each is in the file system at its place in
    the package with its content, and nothing else has changed; the entry
    of the root itself changes nothing. *)
Theorem synthesizeEntryPoint_files
    (H : Host) (P : Params) (mm : ModulesManifest) (licenseBanner : string)
    (progress : Progress) (root name esm : string) (moduleFiles : ModuleFiles)
    (st : State) :
  rootPackageName progress = Some root →
  name ≠ "" →
  getModule (root +:+ "/" +:+ name) mm = Some moduleFiles →
  esm2015_index moduleFiles = Some esm →
  let entry := root +:+ "/" +:+ name in
  let metadataPath := Path.join [srcDir P; name +:+ ".metadata.json"] in
  let typingsPath := Path.join [srcDir P; name +:+ ".d.ts"] in
  let manifestPath := Path.join [srcDir P; name; "package.json"] in
  let st1 :=
    match metadata moduleFiles with
    | Some file =>
        if JS.truthy file
        then afterWrite H P metadataPath
               (metadataReexport
                  (srcDirRelative H P metadataPath
                     (Regex.stripMatchAtEnd ".metadata.json" file)) entry
                +:+ JSON.lineFeed) st
        else st
    | None => st
    end in
  let st2 :=
    afterWrite H P typingsPath
      (licenseBanner +:+ JSON.lineFeed +:+ "export * from '"
       +:+ srcDirRelative H P typingsPath (stripTypingsExtension (typings moduleFiles))
       +:+ "';" +:+ JSON.lineFeed) st1 in
  let st3 :=
    if bool_decide (entry ∈ packagesWithExistingPackageJson progress) then st2
    else afterWrite H P manifestPath
           (JSON.stringify
              (setFormatFields H P manifestPath entry esm (typings moduleFiles)
                               [("name", entry)])) st2 in
  synthesizeEntryPoint H P mm licenseBanner progress (entry, moduleFiles) st
    = Ok (tt, st3) ∧
  synthesizeEntryPoint H P mm licenseBanner progress (root, moduleFiles) st = Ok (tt, st).
Proof.
  intros Hroot Hname Hmodule Hindex. cbv zeta. split.
  - pose proof (synthesizeEntryPoint_run H P mm licenseBanner progress root
                  (root +:+ "/" +:+ name) esm moduleFiles st Hroot) as Hrun.
    cbv zeta in Hrun. rewrite entryPointName_below in Hrun.
    apply Hrun; [by apply truthy_nonempty | done | done].
  - unfold synthesizeEntryPoint. rewrite Hroot.
    rewrite substr_all by lia. by destruct st.
Qed.

Lemma synthesizeEntryPoint_files_witness :
  let P := Sample.params [] in
  let progress := mkProgress false (Some "@angular/common") {["@angular/common/http"]} in
  let moduleFiles :=
    attachIndexPaths Sample.host P
      (mkModuleFiles (Sample.bin +:+ "/testing/testing.js")
                     (Sample.bin +:+ "/testing/testing.d.ts") None true None None) in
  let typingsPath := Path.join [srcDir P; "testing" +:+ ".d.ts"] in
  let manifestPath := Path.join [srcDir P; "testing"; "package.json"] in
  synthesizeEntryPoint Sample.host P Sample.indexed "" progress
      ("@angular/common/testing", moduleFiles) Sample.start
    = Ok (tt,
          afterWrite Sample.host P manifestPath
            (JSON.stringify
               (setFormatFields Sample.host P manifestPath "@angular/common/testing"
                  "bazel-out/bin/packages/common/esm2015/testing/testing.js"
                  (typings moduleFiles) [("name", "@angular/common/testing")]))
            (afterWrite Sample.host P typingsPath
               ("" +:+ JSON.lineFeed +:+ "export * from '"
                +:+ srcDirRelative Sample.host P typingsPath
                      (stripTypingsExtension (typings moduleFiles))
                +:+ "';" +:+ JSON.lineFeed) Sample.start)) ∧
  synthesizeEntryPoint Sample.host P Sample.indexed "" progress
      ("@angular/common", moduleFiles) Sample.start
    = Ok (tt, Sample.start).
Proof.
  assert ("testing" ≠ "") as Hname by discriminate.
  exact (synthesizeEntryPoint_files Sample.host (Sample.params []) Sample.indexed ""
           (mkProgress false (Some "@angular/common") {["@angular/common/http"]})
           "@angular/common" "testing"
           "bazel-out/bin/packages/common/esm2015/testing/testing.js" _ Sample.start
           eq_refl Hname eq_refl eq_refl).
Defined.

(** The two files of the sample entry, as they are in the file system
    after its turn. *)
Example synthesizeEntryPoint_testing_files :
  let P := Sample.params [] in
  let progress := mkProgress false (Some "@angular/common") {["@angular/common/http"]} in
  let moduleFiles :=
    attachIndexPaths Sample.host P
      (mkModuleFiles (Sample.bin +:+ "/testing/testing.js")
                     (Sample.bin +:+ "/testing/testing.d.ts") None true None None) in
  let run :=
    synthesizeEntryPoint Sample.host P Sample.indexed "/* MIT */" progress
      ("@angular/common/testing", moduleFiles) Sample.start in
  fileAfter run "/execroot/dist/common/testing.d.ts"
    = Some ("/* MIT */" +:+ JSON.lineFeed +:+ "export * from './testing/testing';"
            +:+ JSON.lineFeed) ∧
  is_Some (fileAfter run "/execroot/dist/common/testing/package.json") ∧
  fileAfter run "/execroot/dist/common/testing.metadata.json" = None.
Proof. vm_compute. split_and!; [reflexivity | by eexists | reflexivity]. Qed.

(** The test of line 265 is on the length of the name alone: an entry
    whose name is no longer than the root name and one more character has
    an empty local name and writes nothing. *)
Lemma synthesizeEntryPoint_short_name
    (H : Host) (P : Params) (mm : ModulesManifest) (licenseBanner : string)
    (progress : Progress) (root name : string) (moduleFiles : ModuleFiles)
    (st : State) :
  rootPackageName progress = Some root →
  String.length name ≤ String.length root + 1 →
  synthesizeEntryPoint H P mm licenseBanner progress (name, moduleFiles) st = Ok (tt, st).
Proof.
  intros Hroot Hshort. unfold synthesizeEntryPoint.
  rewrite Hroot, substr_all by done. by destruct st.
Qed.

(** ** Placement of escaped file names *)

Section SedFacts.

Implicit Types (pat rep line before after : string).

(** A line without a match is left as it is. *)
Lemma replaceFirstMatch_none pat rep line :
  (∀ i, Regex.matchesAt pat (JS.substr line i) = false) →
  Regex.replaceFirstMatch pat rep line = line.
Proof.
  induction line as [|c line IH]; intros Hnone.
  - specialize (Hnone 0). cbn [JS.substr] in Hnone.
    cbn [Regex.replaceFirstMatch]. by rewrite Hnone.
  - pose proof (Hnone 0) as H0. cbn [JS.substr] in H0.
    cbn [Regex.replaceFirstMatch]. rewrite H0. f_equal.
    apply IH. intros i. apply (Hnone (S i)).
Qed.

(** The leftmost match, and only that one, is replaced. *)
Lemma replaceFirstMatch_leftmost pat rep before after :
  Regex.matchesAt pat after = true →
  (∀ i, i < String.length before →
        Regex.matchesAt pat (JS.substr (before +:+ after) i) = false) →
  Regex.replaceFirstMatch pat rep (before +:+ after)
    = before +:+ rep +:+ JS.substr after (String.length pat).
Proof.
  intros Hhere. induction before as [|c before IH]; intros Hearlier.
  - rewrite !append_nil. destruct after; simpl; by rewrite Hhere.
  - pose proof (Hearlier 0 ltac:(simpl; lia)) as H0.
    rewrite !append_cons in *. simpl in H0. simpl. rewrite H0. f_equal.
    apply IH. intros i Hi. apply (Hearlier (S i)). simpl. lia.
Qed.

(** A name without line terminators matches the pattern made of it. *)
Lemma matchesAt_self pat after :
  forallb (λ c, negb (Regex.isLineTerminator c)) (list_ascii_of_string pat) = true →
  Regex.matchesAt pat (pat +:+ after) = true.
Proof.
  induction pat as [|c pat IH]; intros Hpat; [by destruct after|].
  cbn [list_ascii_of_string forallb] in Hpat. apply andb_prop in Hpat as [Hc Hpat].
  rewrite append_cons. simpl. rewrite IH by done.
  unfold Regex.matchChar. rewrite Ascii.eqb_refl, Hc. by destruct (Ascii.eqb c ".").
Qed.

End SedFacts.

Section CopyFacts.

Context (H : Host).

Lemma shx_cp_run (source target content : string) (st : State) :
  files st !! fileKey H source = Some content →
  fileKey H source ≠ fileKey H target →
  shx_cp H source target st
    = Ok (tt, mkState (<[fileKey H target := content]> (files st))
                      (Copied (fileKey H source) (fileKey H target) :: events st)).
Proof.
  intros Hsource Hne. unfold shx_cp. rewrite bind_run. cbn [getFiles].
  rewrite Hsource. by destruct (String.eqb_spec (fileKey H source) (fileKey H target)).
Qed.

Lemma shx_mv_run (source target content : string) (st : State) :
  files st !! fileKey H source = Some content →
  shx_mv H source target st
    = Ok (tt, mkState (<[fileKey H target := content]> (delete (fileKey H source) (files st)))
                      (Moved (fileKey H source) (fileKey H target) :: events st)).
Proof. intros Hsource. unfold shx_mv. rewrite bind_run. cbn [getFiles]. by rewrite Hsource. Qed.

Lemma shx_sed_i_run (pattern replacement file content : string) (st : State) :
  Regex.plainPattern pattern = true →
  Regex.plainReplacement replacement = true →
  files st !! fileKey H file = Some content →
  shx_sed_i H pattern replacement file st
    = Ok (tt, mkState (<[fileKey H file := sedText pattern replacement content]> (files st))
                      (Edited (fileKey H file) :: events st)).
Proof.
  intros Hpat Hrep Hfile. unfold shx_sed_i. rewrite Hpat, Hrep. cbn [andb].
  rewrite bind_run. cbn [getFiles]. by rewrite Hfile.
Qed.

End CopyFacts.

(** C8, as stated, fails: [shx.sed] rewrites the leftmost match of a line
    only, so a second reference on the line keeps the old name. *)
Lemma copyFile_second_reference_kept :
  let st := mkState {[ "/execroot/in/http__testing.js" :=
                         "//# sourceMappingURL=http__testing.js.map (http__testing.js.map)" ]} [] in
  fileAfter (copyFile Sample.host "in/http__testing.js" "dist" "fesm2015" st)
            "/execroot/dist/fesm2015/http/testing.js"
    = Some "//# sourceMappingURL=testing.js.map (http__testing.js.map)" ∧
  JS.includes "//# sourceMappingURL=testing.js.map (http__testing.js.map)"
              "http__testing.js.map" = true.
Proof. split; by vm_compute. Qed.

(** C8, amended: a file that is not an [.mjs] file and whose output path
    holds the escape ends up at the path made of the parts of its name
    between the escapes, and no longer at the escaped path; if the output
    is a [.js] file, every line of it has the leftmost match of the old
    name followed by [.map], read as a regular expression, replaced by the
    new name followed by [.map]. *)
Theorem copyFile_unescapes
    (H : Host) (file baseDir relative content : string) (st : State) :
  let dir := Path.join [baseDir; relative] in
  let outFile := Path.join [dir; Path.basename file] in
  let outputPath := Path.join (dir :: JS.split (Path.basename outFile) "__") in
  let oldMap := Path.basename file +:+ ".map" in
  let newMap := Path.basename outputPath +:+ ".map" in
  JS.endsWith file ".mjs" = false →
  JS.includes outFile "__" = true →
  files st !! fileKey H file = Some content →
  fileKey H file ≠ fileKey H outFile →
  (JS.endsWith outFile ".js" = true →
   Regex.plainPattern oldMap = true ∧ Regex.plainReplacement newMap = true) →
  ∃ st',
    copyFile H file baseDir relative st = Ok (tt, st') ∧
    files st' !! fileKey H outputPath
      = Some (if JS.endsWith outFile ".js" then sedText oldMap newMap content else content) ∧
    (fileKey H outputPath ≠ fileKey H outFile → files st' !! fileKey H outFile = None).
Proof.
  intros dir outFile outputPath oldMap newMap Hmjs Hescape Hfile Hne Hplain.
  unfold copyFile, outputName, shx_mkdir_p, shx_chmod_w. rewrite Hmjs.
  fold dir. fold outFile. rewrite Hescape. fold outputPath. fold oldMap. fold newMap.
  unfold mbind, M_bind, mret, M_ret.
  rewrite (shx_cp_run H file outFile content) by done.
  erewrite (shx_mv_run H outFile outputPath content)
    by (cbn [files]; apply lookup_insert_eq).
  cbn [files events].
  destruct (JS.endsWith outFile ".js").
  - destruct Hplain as [Hpat Hrep]; [done|].
    erewrite (shx_sed_i_run H oldMap newMap outputPath content)
      by (try done; cbn [files]; apply lookup_insert_eq).
    eexists. split; [done|]. cbn [files]. split.
    + apply lookup_insert_eq.
    + intros Hmoved. rewrite !lookup_insert_ne by done. apply lookup_delete_eq.
  - eexists. split; [done|]. cbn [files]. split.
    + apply lookup_insert_eq.
    + intros Hmoved. rewrite lookup_insert_ne by done. apply lookup_delete_eq.
Qed.

Lemma copyFile_unescapes_witness :
  ∃ st',
    copyFile Sample.host (Sample.bin +:+ "/fesm2015/http__testing.js")
             "dist/common" "fesm2015" Sample.start = Ok (tt, st') ∧
    files st' !! "/execroot/dist/common/fesm2015/http/testing.js"
      = Some "//# sourceMappingURL=testing.js.map" ∧
    ("/execroot/dist/common/fesm2015/http/testing.js"
       ≠ "/execroot/dist/common/fesm2015/http__testing.js" →
     files st' !! "/execroot/dist/common/fesm2015/http__testing.js" = None).
Proof.
  assert (fileKey Sample.host (Sample.bin +:+ "/fesm2015/http__testing.js")
            ≠ fileKey Sample.host
                (Path.join [Path.join ["dist/common"; "fesm2015"];
                            Path.basename (Sample.bin +:+ "/fesm2015/http__testing.js")]))
    as Hne by (vm_compute; discriminate).
  exact (copyFile_unescapes Sample.host (Sample.bin +:+ "/fesm2015/http__testing.js")
           "dist/common" "fesm2015" Sample.sourceMapComment Sample.start
           eq_refl eq_refl eq_refl Hne (λ _, conj eq_refl eq_refl)).
Defined.

(** The rename of an [.mjs] file with an escaped name looks for the copy
    under the input name, which the copy does not have: the run stops. *)
Example copyFile_mjs_escape_throws :
  copyFile Sample.host "in/http__testing.mjs" "dist" "esm2015"
           (mkState {[ "/execroot/in/http__testing.mjs" := "export {};" ]} [])
    = Throw (ShellError "mv: no such file or directory").
Proof. reflexivity. Qed.

(** ** The event log only grows *)

Section ExtendsFacts.

Context (H : Host) (P : Params).

Lemma bind_Ok_inv {A B : Type} (m : M A) (f : A → M B) (st : State) (r : B * State) :
  (m ≫= f) st = Ok r → ∃ a st1, m st = Ok (a, st1) ∧ f a st1 = Ok r.
Proof.
  rewrite bind_run. destruct (m st) as [[a st1]|e]; [eauto | discriminate].
Qed.

Lemma extends_ret {A : Type} (a : A) : extends (mret a).
Proof. intros st a' st' [= _ <-]. done. Qed.

Lemma extends_throw {A : Type} (e : error) : extends (throw (A := A) e).
Proof. intros st a st' [=]. Qed.

Lemma extends_bind {A B : Type} (m : M A) (f : A → M B) :
  extends m → (∀ a, extends (f a)) → extends (m ≫= f).
Proof.
  intros Hm Hf st b st' (a & st1 & Hrun & Hrest)%bind_Ok_inv.
  etrans; [by eapply Hm | by eapply Hf].
Qed.

Lemma extends_emit (e : event) : extends (emit e).
Proof. intros st a st' [= _ <-]. by apply suffix_cons_r. Qed.

Lemma extends_getFiles : extends getFiles.
Proof. intros st a st' [= _ <-]. done. Qed.

Lemma extends_setFiles (fs : gmap string string) : extends (setFiles fs).
Proof. intros st a st' [= _ <-]. done. Qed.

Lemma extends_liftResult {A : Type} (r : result A) : extends (liftResult r).
Proof. destruct r; [apply extends_ret | apply extends_throw]. Qed.

Hint Resolve extends_ret extends_throw extends_emit extends_getFiles
  extends_setFiles extends_liftResult : extends.

Ltac extends_step :=
  first [ apply extends_bind; [|intros ?]
        | match goal with
          | |- extends (match ?x with _ => _ end) => destruct x
          | |- extends (let '(_, _) := ?x in _) => destruct x
          end
        | solve [eauto with extends] ].

Lemma extends_console_error (message : string) : extends (console_error message).
Proof. apply extends_emit. Qed.

Lemma extends_fs_readFileSync (p : string) : extends (fs_readFileSync H p).
Proof. unfold fs_readFileSync. repeat extends_step. Qed.

Lemma extends_writeFileFromInputPath (inputPath content : string) :
  extends (writeFileFromInputPath H P inputPath content).
Proof.
  unfold writeFileFromInputPath, fs_writeFileSync, shx_mkdir_p. repeat extends_step.
Qed.

Hint Resolve extends_console_error extends_fs_readFileSync
  extends_writeFileFromInputPath : extends.

Lemma extends_amendPackageJson (mm : ModulesManifest) (packageJson : string)
    (parsedPackage : PackageJson) (isGeneratedPackageJson : bool) :
  extends (amendPackageJson H P mm packageJson parsedPackage isGeneratedPackageJson).
Proof.
  unfold amendPackageJson, warnNoModuleData, warnExplicitFormat.
  repeat extends_step.
Qed.

Hint Resolve extends_amendPackageJson : extends.


Lemma extends_synthesizeEntryPoint (mm : ModulesManifest) (licenseBanner : string)
    (progress : Progress) (entry : string * ModuleFiles) :
  extends (synthesizeEntryPoint H P mm licenseBanner progress entry).
Proof.
  unfold synthesizeEntryPoint, createMetadataReexportFile, createTypingsReexportFile,
    createEntryPointPackageJson.
  repeat extends_step.
Qed.

Lemma extends_forEach {A : Type} (f : A → M unit) (l : list A) :
  (∀ x, extends (f x)) → extends (forEach f l).
Proof.
  intros Hf. induction l as [|x l IH]; cbn [forEach]; [apply extends_ret|].
  by apply extends_bind.
Qed.





(** *** No file is removed *)

Lemma keeps_ret {A : Type} (a : A) : keeps (mret a).
Proof. intros st a' st' key [= _ <-]. done. Qed.

Lemma keeps_throw {A : Type} (e : error) : keeps (throw (A := A) e).
Proof. intros st a st' key [=]. Qed.

Lemma keeps_bind {A B : Type} (m : M A) (f : A → M B) :
  keeps m → (∀ a, keeps (f a)) → keeps (m ≫= f).
Proof.
  intros Hm Hf st b st' key (a & st1 & Hrun & Hrest)%bind_Ok_inv Hkey.
  eapply Hf; [done|]. by eapply Hm.
Qed.

Lemma keeps_emit (e : event) : keeps (emit e).
Proof. intros st a st' key [= _ <-]. done. Qed.

Lemma keeps_liftResult {A : Type} (r : result A) : keeps (liftResult r).
Proof. destruct r; [apply keeps_ret | apply keeps_throw]. Qed.

Lemma keeps_console_error (message : string) : keeps (console_error message).
Proof. apply keeps_emit. Qed.

Lemma keeps_fs_readFileSync (p : string) : keeps (fs_readFileSync H p).
Proof.
  intros st a st' key Hrun Hkey. unfold fs_readFileSync in Hrun.
  rewrite bind_run in Hrun. cbn [getFiles] in Hrun.
  destruct (files st !! fileKey H p); [|discriminate]. by injection Hrun as _ <-.
Qed.

Lemma keeps_writeFileFromInputPath (inputPath content : string) :
  keeps (writeFileFromInputPath H P inputPath content).
Proof.
  intros st a st' key Hrun Hkey. rewrite writeFileFromInputPath_run in Hrun.
  injection Hrun as _ <-. cbn [files]. apply lookup_insert_is_Some.
  destruct (decide (fileKey H (outputPathOf H P inputPath) = key)); [by left | by right].
Qed.

Hint Resolve keeps_ret keeps_throw keeps_emit keeps_liftResult keeps_console_error
  keeps_fs_readFileSync keeps_writeFileFromInputPath : keeps.

Ltac keeps_step :=
  first [ solve [eauto with keeps]
        | match goal with
          | |- keeps (match ?x with _ => _ end) => destruct x
          | |- keeps (let '(_, _) := ?x in _) => destruct x
          end
        | apply keeps_bind; [|intros ?] ].

Lemma keeps_amendPackageJson (mm : ModulesManifest) (packageJson : string)
    (parsedPackage : PackageJson) (isGeneratedPackageJson : bool) :
  keeps (amendPackageJson H P mm packageJson parsedPackage isGeneratedPackageJson).
Proof.
  unfold amendPackageJson, warnNoModuleData, warnExplicitFormat.
  repeat keeps_step.
Qed.

Hint Resolve keeps_amendPackageJson : keeps.










End ExtendsFacts.

(** ** The loop over the sources and the root package name *)

Section LoopFacts.

Context (H : Host) (P : Params) (mm : ModulesManifest).

Lemma fs_readFileSync_Ok (p content : string) (st st' : State) :
  fs_readFileSync H p st = Ok (content, st') →
  files st !! fileKey H p = Some content ∧ st' = st.
Proof.
  unfold fs_readFileSync. rewrite bind_run. cbn [getFiles].
  destruct (files st !! fileKey H p); [|discriminate]. by intros [= <- <-].
Qed.

Lemma liftResult_Ok {A : Type} (r : result A) (a : A) (st st' : State) :
  liftResult r st = Ok (a, st') → r = Ok a.
Proof. destruct r; [by intros [= <- _] | discriminate]. Qed.

(** One turn of the loop: a manifest updates the root by its name, any
    other source leaves it. *)
Lemma processSrc_root (progress progress' : Progress) (src : string) (st st' : State) :
  processSrc H P mm progress src st = Ok (progress', st') →
  if String.eqb (Path.basename src) "package.json"
  then ∃ packageJson,
         files st !! fileKey H src ≫= parseManifest H = Some packageJson ∧
         selectRoot (rootPackageName progress) (getField "name" packageJson)
           = Ok (rootPackageName progress')
  else rootPackageName progress' = rootPackageName progress.
Proof.
  unfold processSrc. intros (warned & st0 & Hwarn & Hrun)%bind_Ok_inv.
  assert (files st0 = files st) as Hfiles.
  { revert Hwarn. by destruct (isBuildOutput P src); intros [= _ <-]. }
  apply bind_Ok_inv in Hrun as (content & st1 & [Hread ->]%fs_readFileSync_Ok & Hrun).
  rewrite Hfiles in Hread.
  destruct (String.eqb (Path.basename src) "package.json").
  - destruct (parseManifest H content) as [packageJson|] eqn:Hparse; [|discriminate].
    apply bind_Ok_inv in Hrun as (amended & st3 & _ & Hrun).
    apply bind_Ok_inv in Hrun as (root & st4 & Hroot%liftResult_Ok & Hrun).
    apply bind_Ok_inv in Hrun as ([] & st5 & _ & Hrun).
    injection Hrun as <- <-. exists packageJson. rewrite Hread. by split.
  - apply bind_Ok_inv in Hrun as ([] & st5 & _ & Hrun). by injection Hrun as <- <-.
Qed.

(** The root package name that the loop leaves is the one selected from
    the names of the manifests it has read. *)
Lemma foldM_processSrc_root (sources : list string) (progress progress' : Progress)
    (st st' : State) :
  foldM (processSrc H P mm) progress sources st = Ok (progress', st') →
  selectRoots (rootPackageName progress) (manifestNames H P mm progress sources st)
    = Ok (rootPackageName progress').
Proof.
  revert progress st. induction sources as [|src sources IH]; intros progress st.
  - by intros [= <- <-].
  - cbn [foldM manifestNames]. intros (progress1 & st1 & Hstep & Hrest)%bind_Ok_inv.
    rewrite Hstep. apply processSrc_root in Hstep. apply IH in Hrest.
    destruct (String.eqb (Path.basename src) "package.json").
    + destruct Hstep as (packageJson & -> & Hroot). cbn [app selectRoots].
      by rewrite Hroot.
    + cbn [app]. by rewrite <- Hstep.
Qed.

(** [main] hands every entry of the mapping on with its derived index
    paths attached. *)
Lemma indexModules_Ok (entries entries' : ModulesManifest) (st st' : State) :
  indexModules H P entries st = Ok (entries', st') →
  entries' = prod_map id (attachIndexPaths H P) <$> entries.
Proof.
  revert entries' st st'. induction entries as [|[moduleName moduleFiles] entries IH];
    intros entries' st st'.
  - by intros [= <- _].
  - cbn [indexModules]. intros (_ & st1 & _ & Hrun)%bind_Ok_inv.
    apply bind_Ok_inv in Hrun as (rest & st2 & ->%IH & Hrun).
    by injection Hrun as <- _.
Qed.

(** Looking an entry up after the index paths have been attached. *)
Lemma getModule_indexed (name : string) (entries : ModulesManifest) :
  getModule name (prod_map id (attachIndexPaths H P) <$> entries)
    = attachIndexPaths H P <$> getModule name entries.
Proof.
  induction entries as [|[k v] entries IH]; [done|].
  cbn [fmap list_fmap prod_map getModule fst snd id]. by destruct (String.eqb k name).
Qed.

(** Every entry that [amendPackageJson] finds during a run of [main]
    carries its ES2015 index path. *)
Lemma indexed_esm2015_index (name : string) (entries : ModulesManifest)
    (moduleFiles : ModuleFiles) :
  getModule name (prod_map id (attachIndexPaths H P) <$> entries) = Some moduleFiles →
  is_Some (esm2015_index moduleFiles).
Proof.
  rewrite getModule_indexed. destruct (getModule name entries); [|done].
  intros [= <-]. by eexists.
Qed.

End LoopFacts.

(** ** The exit code *)




(** The sample without the generated source exits with 0. *)
Example main_sample_succeeds :
  exitCode (main Sample.host (Sample.params Sample.sources) Sample.start) = Some 0.
Proof. vm_compute. reflexivity. Qed.

(** * Further properties of the packager *)

(** ** Splitting and joining *)

Section SplitFacts.

Implicit Types (s t cur sep : string) (parts : list string).

Lemma append_assoc s t u : (s +:+ t) +:+ u = s +:+ t +:+ u.
Proof. induction s as [|c s IH]; [done|]. rewrite !append_cons. by rewrite IH. Qed.

Lemma append_nil_r s : s +:+ "" = s.
Proof. induction s as [|c s IH]; [done|]. rewrite append_cons. by rewrite IH. Qed.

Lemma take_append s t : JS.take (s +:+ t) (String.length s) = s.
Proof. induction s as [|c s IH]; [done|]. rewrite append_cons. simpl. by rewrite IH. Qed.

Lemma startsWith_append s t : JS.startsWith (s +:+ t) s = true.
Proof.
  induction s as [|c s IH]; [apply startsWith_empty|].
  rewrite append_cons. cbn [JS.startsWith]. by rewrite Ascii.eqb_refl.
Qed.

Lemma startsWith_inv s p :
  JS.startsWith s p = true → s = p +:+ JS.substr s (String.length p).
Proof.
  revert s. induction p as [|a p IH]; intros s Hs; [done|].
  destruct s as [|b s]; [done|]. cbn [JS.startsWith] in Hs.
  destruct (Ascii.eqb_spec a b) as [->|]; [|done].
  rewrite append_cons. simpl. by rewrite <- IH.
Qed.

Lemma join_cons_cons (x y : string) parts sep :
  JS.join (x :: y :: parts) sep = x +:+ sep +:+ JS.join (y :: parts) sep.
Proof. done. Qed.

Lemma join_app parts1 parts2 sep :
  parts1 ≠ [] → parts2 ≠ [] →
  JS.join (parts1 ++ parts2) sep = JS.join parts1 sep +:+ sep +:+ JS.join parts2 sep.
Proof.
  intros H1 H2. induction parts1 as [|x [|y parts1] IH]; [done| |].
  - destruct parts2; [done|]. done.
  - rewrite <- !app_comm_cons, !join_cons_cons, append_assoc, append_assoc.
    do 2 f_equal. by apply IH.
Qed.

Lemma splitFrom_nonempty sep (k : nat) cur s : JS.splitFrom sep k cur s ≠ [].
Proof.
  revert k cur. induction s as [|c s IH]; intros k cur; [done|].
  cbn [JS.splitFrom]. destruct k; [|apply IH].
  destruct (JS.startsWith _ _); [done | apply IH].
Qed.

(** Joining the parts of a split with the separator gives the string
    back. *)
Lemma join_splitFrom sep s :
  sep ≠ "" →
  ∀ (k : nat) cur, k ≤ String.length s →
    JS.join (JS.splitFrom sep k cur s) sep = cur +:+ JS.substr s k.
Proof.
  intros Hsep. induction s as [|c s IH]; intros k cur Hk.
  - destruct k; simpl in *; [by rewrite append_nil_r | lia].
  - cbn [JS.splitFrom]. destruct k as [|k].
    + destruct (JS.startsWith (String c s) sep) eqn:Hstart.
      * pose proof (startsWith_inv _ _ Hstart) as Hs.
        destruct sep as [|a sep]; [done|].
        destruct (JS.splitFrom (String a sep) (String.length (String a sep) - 1) "" s)
          as [|y parts] eqn:Hparts; [by apply splitFrom_nonempty in Hparts|].
        rewrite join_cons_cons, <- Hparts, IH.
        -- change (String.length (String a sep) - 1) with (String.length sep - 0).
           change (JS.substr (String c s) (String.length (String a sep)))
             with (JS.substr s (String.length sep)) in Hs.
           rewrite Nat.sub_0_r, append_nil. by rewrite <- Hs.
        -- apply (f_equal String.length) in Hs. rewrite length_append in Hs.
           simpl in *. lia.
      * rewrite IH by lia. simpl. by rewrite append_assoc.
    + rewrite IH by (simpl in Hk; lia). done.
Qed.

Lemma join_split s sep : sep ≠ "" → JS.join (JS.split s sep) sep = s.
Proof. intros Hsep. unfold JS.split. by rewrite join_splitFrom by (done || lia). Qed.

End SplitFacts.

(** ** Splitting at slashes *)

Section SlashFacts.

Implicit Types (s t cur : string) (parts segs : list string).

Lemma splitFrom_slash_cons cur (c : ascii) s :
  JS.splitFrom "/" 0 cur (String c s) =
    if Path.isSlash c then cur :: JS.splitFrom "/" 0 "" s
    else JS.splitFrom "/" 0 (cur +:+ String c "") s.
Proof.
  cbn [JS.splitFrom JS.startsWith]. unfold Path.isSlash.
  rewrite (Ascii.eqb_sym "/" c), startsWith_empty. by destruct (Ascii.eqb c "/").
Qed.

Lemma slashFree_cons (c : ascii) s :
  slashFree (String c s) = negb (Path.isSlash c) && slashFree s.
Proof. done. Qed.

Lemma slashFree_append s t : slashFree (s +:+ t) = slashFree s && slashFree t.
Proof.
  induction s as [|c s IH]; [done|].
  rewrite append_cons, !slashFree_cons, IH. by rewrite andb_assoc.
Qed.

(** The split of a concatenation over a slash is the two splits. *)
Lemma splitFrom_app_slash cur s t :
  JS.splitFrom "/" 0 cur (s +:+ "/" +:+ t)
    = JS.splitFrom "/" 0 cur s ++ JS.split t "/".
Proof.
  revert cur. induction s as [|c s IH]; intros cur.
  - rewrite append_nil. change ("/" +:+ t) with (String "/" t).
    by rewrite splitFrom_slash_cons.
  - rewrite append_cons, !splitFrom_slash_cons.
    destruct (Path.isSlash c); by rewrite IH.
Qed.

Lemma split_app_slash s t : JS.split (s +:+ "/" +:+ t) "/" = JS.split s "/" ++ JS.split t "/".
Proof. apply splitFrom_app_slash. Qed.

Lemma splitFrom_slashFree cur s :
  slashFree s = true → JS.splitFrom "/" 0 cur s = [cur +:+ s].
Proof.
  revert cur. induction s as [|c s IH]; intros cur Hs.
  - by rewrite append_nil_r.
  - rewrite slashFree_cons in Hs. apply andb_prop in Hs as [Hc Hs].
    rewrite splitFrom_slash_cons. destruct (Path.isSlash c); [done|].
    rewrite IH by done. by rewrite append_assoc.
Qed.

Lemma split_slashFree s : slashFree s = true → JS.split s "/" = [s].
Proof. intros Hs. unfold JS.split. by rewrite splitFrom_slashFree. Qed.

(** No part of a split at slashes holds a slash. *)
Lemma splitFrom_parts_slashFree cur s :
  slashFree cur = true → Forall (λ part, slashFree part = true) (JS.splitFrom "/" 0 cur s).
Proof.
  revert cur. induction s as [|c s IH]; intros cur Hcur.
  - by constructor.
  - rewrite splitFrom_slash_cons. destruct (Path.isSlash c) eqn:Hc.
    + constructor; [done | by apply IH].
    + apply IH. rewrite slashFree_append, Hcur, slashFree_cons, Hc. done.
Qed.

Lemma split_parts_slashFree s : Forall (λ part, slashFree part = true) (JS.split s "/").
Proof. by apply splitFrom_parts_slashFree. Qed.

(** A split at slashes has one part more than there are slashes. *)
Lemma splitFrom_length cur s :
  length (JS.splitFrom "/" 0 cur s) = S (countChar "/" s).
Proof.
  revert cur. induction s as [|c s IH]; intros cur; [done|].
  rewrite splitFrom_slash_cons. cbn [countChar]. unfold Path.isSlash.
  destruct (Ascii.eqb c "/"); simpl; by rewrite IH.
Qed.

(** Joining the parts with another character replaces the slashes. *)
Lemma join_splitFrom_replace (d : ascii) cur s :
  JS.join (JS.splitFrom "/" 0 cur s) (String d "") = cur +:+ JS.replaceChar "/" d s.
Proof.
  revert cur. induction s as [|c s IH]; intros cur.
  - by rewrite append_nil_r.
  - rewrite splitFrom_slash_cons. cbn [JS.replaceChar]. unfold Path.isSlash.
    destruct (Ascii.eqb c "/").
    + destruct (JS.splitFrom "/" 0 "" s) as [|y parts] eqn:Hparts;
        [by apply splitFrom_nonempty in Hparts|].
      by rewrite join_cons_cons, <- Hparts, IH.
    + rewrite IH. by rewrite append_assoc.
Qed.

(** Splitting a join of slash-free segments gives the segments back. *)
Lemma split_join segs :
  segs ≠ [] → Forall (λ seg, slashFree seg = true) segs →
  JS.split (JS.join segs "/") "/" = segs.
Proof.
  intros Hne Hsegs. induction Hsegs as [|seg segs Hseg Hsegs IH]; [done|].
  destruct segs as [|seg' segs].
  - by apply split_slashFree.
  - rewrite join_cons_cons, split_app_slash, split_slashFree, IH by done. done.
Qed.

End SlashFacts.

(** ** Bundle names, in general *)

Section BundleNameFacts.

Implicit Types (name scope rest dir : string).

(** [newArray] gives [size] copies of the value. *)
Lemma newArray_replicate {T : Type} (size : nat) (value : T) :
  newArray size value = replicate size value.
Proof.
  unfold newArray. induction size as [|size IH]; [done|].
  rewrite Nat.iter_succ, IH. clear IH.
  induction size as [|size IH]; [done|]. cbn [replicate app]. by rewrite IH.
Qed.

Lemma join_replicate_truthy (n : nat) :
  JS.truthy (JS.join (replicate n "..") "/") = negb (n =? 0)%nat.
Proof. destruct n as [|[|n]]; done. Qed.

(** The path of [getBundleName] in terms of the segments of the name
    once the scope is dropped. *)
Lemma getBundleName_parts name dir :
  let parts := JS.split name "/" in
  let nameParts := if JS.startsWith name "@" then drop 1 parts else parts in
  getBundleName name dir =
    (match length nameParts - 1 with
     | 0 => "."
     | S n => JS.join (replicate (S n) "..") "/"
     end)
    +:+ "/" +:+ dir +:+ "/"
    +:+ (if String.eqb dir "bundles" then JS.join nameParts "-" +:+ ".umd"
         else if (length nameParts =? 1)%nat then default "" (head nameParts)
         else JS.join (drop 1 nameParts) "/")
    +:+ ".js".
Proof.
  intros parts nameParts. unfold getBundleName. fold parts. fold nameParts.
  rewrite newArray_replicate, join_replicate_truthy.
  destruct (length nameParts - 1) as [|n]; cbn [Nat.eqb negb];
    rewrite !join_cons_cons; by cbn [JS.join String.concat].
Qed.

End BundleNameFacts.

(** X1: [newArray(size, value)] has exactly [size] elements and each of
    them is the value. *)
Theorem newArray_spec {T : Type} (size : nat) (value : T) :
  length (newArray size value) = size ∧ ∀ x, x ∈ newArray size value → x = value.
Proof.
  rewrite newArray_replicate. split; [apply length_replicate|].
  intros x Hx. by apply elem_of_replicate in Hx as [-> _].
Qed.

(** X2: the scope of a package name plays no part in the bundle name: a
    scoped name gives the path of the name without its scope. *)
Theorem getBundleName_scope_ignored (scope rest dir : string) :
  slashFree scope = true →
  JS.startsWith rest "@" = false →
  getBundleName ("@" +:+ scope +:+ "/" +:+ rest) dir = getBundleName rest dir.
Proof.
  intros Hscope Hrest. unfold getBundleName. rewrite Hrest.
  change ("@" +:+ scope +:+ "/" +:+ rest) with (("@" +:+ scope) +:+ "/" +:+ rest).
  rewrite split_app_slash, (split_slashFree ("@" +:+ scope)) by done.
  assert (JS.startsWith (("@" +:+ scope) +:+ "/" +:+ rest) "@" = true) as ->.
  { change (("@" +:+ scope) +:+ "/" +:+ rest) with (String "@" (scope +:+ "/" +:+ rest)).
    cbn [JS.startsWith]. by rewrite startsWith_empty. }
  done.
Qed.

Lemma getBundleName_scope_ignored_witness :
  getBundleName ("@" +:+ "angular" +:+ "/" +:+ "common/http") "fesm2015"
    = getBundleName "common/http" "fesm2015".
Proof.
  apply (getBundleName_scope_ignored "angular" "common/http" "fesm2015"); reflexivity.
Defined.

(** X3: for a name without scope, the UMD bundle is named after the whole
    name with its slashes turned into dashes, and the path climbs one
    level per slash of the name. *)
Theorem getBundleName_bundles (name : string) :
  JS.startsWith name "@" = false →
  getBundleName name "bundles" =
    (match countChar "/" name with
     | 0 => "."
     | S n => JS.join (replicate (S n) "..") "/"
     end)
    +:+ "/bundles/" +:+ JS.replaceChar "/" "-" name +:+ ".umd.js".
Proof.
  intros Hname. rewrite getBundleName_parts. cbv zeta. rewrite Hname.
  unfold JS.split. rewrite splitFrom_length, Nat.sub_1_r. cbn [Nat.pred].
  rewrite String.eqb_refl, (join_splitFrom_replace "-"), append_nil.
  destruct (countChar "/" name); by rewrite !append_assoc.
Qed.

Lemma getBundleName_bundles_witness :
  getBundleName "common/http/testing" "bundles" =
    (match countChar "/" "common/http/testing" with
     | 0 => "."
     | S n => JS.join (replicate (S n) "..") "/"
     end)
    +:+ "/bundles/" +:+ JS.replaceChar "/" "-" "common/http/testing" +:+ ".umd.js".
Proof. apply (getBundleName_bundles "common/http/testing"). reflexivity. Defined.

(** X4: in a directory other than [bundles], a name of a single segment
    names the file after itself, next to the package root. *)
Theorem getBundleName_flat_root (name dir : string) :
  String.eqb dir "bundles" = false →
  JS.startsWith name "@" = false →
  slashFree name = true →
  getBundleName name dir = "./" +:+ dir +:+ "/" +:+ name +:+ ".js".
Proof.
  intros Hdir Hname Hfree. rewrite getBundleName_parts. cbv zeta.
  rewrite Hname, Hdir, split_slashFree by done. done.
Qed.

Lemma getBundleName_flat_root_witness :
  getBundleName "common" "fesm2015" = "./" +:+ "fesm2015" +:+ "/" +:+ "common" +:+ ".js".
Proof. apply (getBundleName_flat_root "common" "fesm2015"); reflexivity. Defined.

(** X5: in a directory other than [bundles], a nested name drops its first
    segment: the file is named after the rest of the name, and the path
    climbs one level per slash of the whole name. *)
Theorem getBundleName_flat_nested (first rest dir : string) :
  String.eqb dir "bundles" = false →
  JS.startsWith first "@" = false →
  slashFree first = true →
  getBundleName (first +:+ "/" +:+ rest) dir =
    JS.join (replicate (S (countChar "/" rest)) "..") "/"
    +:+ "/" +:+ dir +:+ "/" +:+ rest +:+ ".js".
Proof.
  intros Hdir Hfirst Hfree. rewrite getBundleName_parts. cbv zeta.
  assert (JS.startsWith (first +:+ "/" +:+ rest) "@" = false) as ->.
  { destruct first as [|c first]; [done|]. rewrite append_cons.
    cbn [JS.startsWith] in *.
    destruct (Ascii.eqb "@" c); [by rewrite startsWith_empty in Hfirst | done]. }
  rewrite Hdir, split_app_slash, split_slashFree by done.
  cbn [app length]. rewrite skipn_cons, drop_0, join_split by done.
  unfold JS.split. rewrite splitFrom_length.
  change (S (S (countChar "/" rest)) - 1) with (S (countChar "/" rest) - 0).
  rewrite Nat.sub_0_r. by destruct (countChar "/" rest).
Qed.

Lemma getBundleName_flat_nested_witness :
  getBundleName ("common" +:+ "/" +:+ "http/testing") "fesm2015" =
    JS.join (replicate (S (countChar "/" "http/testing")) "..") "/"
    +:+ "/" +:+ "fesm2015" +:+ "/" +:+ "http/testing" +:+ ".js".
Proof. apply (getBundleName_flat_nested "common" "http/testing" "fesm2015"); reflexivity. Defined.

(** ** Format fields *)

Section FormatFacts.

Implicit Types (pkg : PackageJson) (k v : string).

Lemma getField_is_Some k pkg : is_Some (getField k pkg) ↔ k ∈ pkg.*1.
Proof.
  induction pkg as [|[k' v'] pkg IH]; simpl.
  - split; [by intros [? ?] | by intros ?%elem_of_nil].
  - rewrite elem_of_cons. destruct (String.eqb_spec k' k) as [->|Hne].
    + split; [by left | eauto].
    + rewrite IH. split; [by right | by intros [->|]].
Qed.

Lemma isKnownFormatField_elem_of k :
  isKnownFormatField k = true ↔ k ∈ knownFormatPackageJsonFields.
Proof.
  unfold isKnownFormatField. rewrite existsb_exists. split.
  - intros (x & Hx%list_elem_of_In & ->%String.eqb_eq). done.
  - intros Hk. exists k. split; [by apply list_elem_of_In | apply String.eqb_refl].
Qed.

(** Assigning the value a field already has changes nothing. *)
Lemma setField_same k v pkg : getField k pkg = Some v → setField k v pkg = pkg.
Proof.
  induction pkg as [|[k' v'] pkg IH]; [done|]. simpl.
  destruct (String.eqb k' k); [by intros [= ->] | by intros ->%IH].
Qed.

End FormatFacts.

(** X6: a manifest has explicit format properties exactly when one of the
    six format fields is among its fields. *)
Theorem hasExplicitFormatProperties_iff (parsedPackage : PackageJson) :
  hasExplicitFormatProperties parsedPackage = true ↔
  ∃ k, k ∈ knownFormatPackageJsonFields ∧ is_Some (getField k parsedPackage).
Proof.
  unfold hasExplicitFormatProperties. rewrite existsb_exists. split.
  - intros (k & Hk%list_elem_of_In & Hknown%isKnownFormatField_elem_of).
    exists k. split; [done|]. by apply getField_is_Some.
  - intros (k & Hknown & Hk%getField_is_Some). exists k.
    split; [by apply list_elem_of_In | by apply isKnownFormatField_elem_of].
Qed.

Section AmendedFacts.

Context (H : Host) (P : Params).
Context (packageJson name esm typingsFile : string) (pkg : PackageJson).

Lemma setFormatFields_values :
  let amended := setFormatFields H P packageJson name esm typingsFile pkg in
  getField "main" amended = Some (getBundleName name "bundles") ∧
  getField "fesm2015" amended = Some (getBundleName name "fesm2015") ∧
  getField "esm2015" amended = Some (srcDirRelative H P packageJson esm) ∧
  getField "typings" amended = Some (srcDirRelative H P packageJson typingsFile) ∧
  getField "module" amended = Some (getBundleName name "fesm2015") ∧
  getField "es2015" amended = Some (getBundleName name "fesm2015").
Proof.
  cbv zeta. rewrite setFormatFields_unfold.
  split_and!; repeat (rewrite getField_setField_ne by done);
    apply getField_setField_eq.
Qed.

(** The assignments of an amendment are idempotent. *)
Lemma setFormatFields_idempotent :
  let amended := setFormatFields H P packageJson name esm typingsFile pkg in
  setFormatFields H P packageJson name esm typingsFile amended = amended.
Proof.
  intros amended.
  destruct setFormatFields_values as (Hmain & Hfesm & Hesm & Htypings & Hmodule & Hes).
  fold amended in Hmain, Hfesm, Hesm, Htypings, Hmodule, Hes.
  rewrite (setFormatFields_unfold H P packageJson name esm typingsFile amended).
  rewrite (setField_same "main" _ amended Hmain).
  rewrite (setField_same "fesm2015" _ amended Hfesm).
  rewrite (setField_same "esm2015" _ amended Hesm).
  rewrite (setField_same "typings" _ amended Htypings).
  rewrite (setField_same "module" _ amended Hmodule).
  apply (setField_same "es2015" _ amended Hes).
Qed.

End AmendedFacts.

(** X7: after an amendment the six format fields hold the derived paths,
    whatever the manifest declared before: [main] the UMD bundle,
    [fesm2015], [module] and [es2015] the flat ES2015 module, [esm2015]
    and [typings] the references to the index and to the typings. *)
Theorem amendPackageJson_fields
    (H : Host) (P : Params) (mm : ModulesManifest) (packageJson : string)
    (parsedPackage : PackageJson) (isGeneratedPackageJson : bool)
    (name esm2015Index : string) (moduleData : ModuleFiles) (st : State) :
  getField "name" parsedPackage = Some name →
  getModule name mm = Some moduleData →
  guessedPaths moduleData && negb isGeneratedPackageJson
    && hasExplicitFormatProperties parsedPackage = false →
  esm2015_index moduleData = Some esm2015Index →
  ∃ amended : PackageJson,
    amendPackageJson H P mm packageJson parsedPackage isGeneratedPackageJson st
      = Ok (JSON.stringify amended, st) ∧
    getField "main" amended = Some (getBundleName name "bundles") ∧
    getField "fesm2015" amended = Some (getBundleName name "fesm2015") ∧
    getField "esm2015" amended = Some (srcDirRelative H P packageJson esm2015Index) ∧
    getField "typings" amended
      = Some (srcDirRelative H P packageJson (typings moduleData)) ∧
    getField "module" amended = Some (getBundleName name "fesm2015") ∧
    getField "es2015" amended = Some (getBundleName name "fesm2015").
Proof.
  intros Hname Hmodule Hskip Hindex.
  exists (setFormatFields H P packageJson name esm2015Index (typings moduleData) parsedPackage).
  split; [|apply setFormatFields_values].
  unfold amendPackageJson. rewrite Hname. simpl. rewrite Hmodule, Hskip, Hindex.
  by destruct st.
Qed.

Lemma amendPackageJson_fields_witness :
  let moduleData :=
    attachIndexPaths Sample.host (Sample.params [])
      (mkModuleFiles (Sample.bin +:+ "/http/http.js") (Sample.bin +:+ "/http/http.d.ts")
                     (Some (Sample.bin +:+ "/http/http.metadata.json")) false None None) in
  let esm := Path.join [Sample.bin; "esm2015";
                        path_relative Sample.host Sample.bin (Sample.bin +:+ "/http/http.js")] in
  ∃ amended : PackageJson,
    amendPackageJson Sample.host (Sample.params []) Sample.indexed
        "packages/common/http/package.json" Sample.httpManifest false Sample.start
      = Ok (JSON.stringify amended, Sample.start) ∧
    getField "main" amended = Some (getBundleName "@angular/common/http" "bundles") ∧
    getField "fesm2015" amended = Some (getBundleName "@angular/common/http" "fesm2015") ∧
    getField "esm2015" amended
      = Some (srcDirRelative Sample.host (Sample.params [])
                "packages/common/http/package.json" esm) ∧
    getField "typings" amended
      = Some (srcDirRelative Sample.host (Sample.params [])
                "packages/common/http/package.json" (typings moduleData)) ∧
    getField "module" amended = Some (getBundleName "@angular/common/http" "fesm2015") ∧
    getField "es2015" amended = Some (getBundleName "@angular/common/http" "fesm2015").
Proof.
  intros moduleData esm.
  exact (amendPackageJson_fields Sample.host (Sample.params []) Sample.indexed
           "packages/common/http/package.json" Sample.httpManifest false
           "@angular/common/http" esm moduleData Sample.start
           eq_refl eq_refl eq_refl eq_refl).
Defined.

(** X8: amending the result of an amendment again, generated or not,
    returns the same serialized manifest and leaves the files alone. *)
Theorem amendPackageJson_stable
    (H : Host) (P : Params) (mm : ModulesManifest) (packageJson : string)
    (parsedPackage : PackageJson) (isGeneratedPackageJson : bool)
    (name esm2015Index : string) (moduleData : ModuleFiles) (st : State) :
  getField "name" parsedPackage = Some name →
  getModule name mm = Some moduleData →
  esm2015_index moduleData = Some esm2015Index →
  let amended :=
    setFormatFields H P packageJson name esm2015Index (typings moduleData) parsedPackage in
  ∃ st',
    amendPackageJson H P mm packageJson amended isGeneratedPackageJson st
      = Ok (JSON.stringify amended, st') ∧
    files st' = files st.
Proof.
  intros Hname Hmodule Hindex amended.
  assert (getField "name" amended = Some name) as Hname'.
  { unfold amended. by rewrite setFormatFields_other. }
  unfold amendPackageJson. rewrite Hname'. simpl. rewrite Hmodule.
  destruct (guessedPaths moduleData && negb isGeneratedPackageJson
            && hasExplicitFormatProperties amended).
  - eexists. split; [reflexivity | done].
  - rewrite Hindex. unfold amended. rewrite setFormatFields_idempotent.
    exists st. split; [by destruct st | done].
Qed.

Lemma amendPackageJson_stable_witness :
  let moduleData :=
    attachIndexPaths Sample.host (Sample.params [])
      (mkModuleFiles (Sample.bin +:+ "/common.js") (Sample.bin +:+ "/common.d.ts")
                     (Some (Sample.bin +:+ "/common.metadata.json")) false None None) in
  let esm := Path.join [Sample.bin; "esm2015";
                        path_relative Sample.host Sample.bin (Sample.bin +:+ "/common.js")] in
  let amended :=
    setFormatFields Sample.host (Sample.params []) "packages/common/package.json"
      "@angular/common" esm (typings moduleData) Sample.rootManifest in
  ∃ st',
    amendPackageJson Sample.host (Sample.params []) Sample.indexed
        "packages/common/package.json" amended false Sample.start
      = Ok (JSON.stringify amended, st') ∧
    files st' = files Sample.start.
Proof.
  intros moduleData esm.
  exact (amendPackageJson_stable Sample.host (Sample.params []) Sample.indexed
           "packages/common/package.json" Sample.rootManifest false
           "@angular/common" esm moduleData Sample.start eq_refl eq_refl eq_refl).
Defined.

(** ** The extensions that the re-exports drop *)

Section SuffixFacts.

Implicit Types (s base suffix : string).

Lemma endsWith_append base suffix : JS.endsWith (base +:+ suffix) suffix = true.
Proof.
  unfold JS.endsWith. rewrite length_append.
  replace (String.length base + String.length suffix - String.length suffix)
    with (String.length base) by lia.
  rewrite substr_append, String.eqb_refl, andb_true_r. apply Nat.leb_le. lia.
Qed.

Lemma stripSuffix_append base suffix : JS.stripSuffix (base +:+ suffix) suffix = base.
Proof.
  unfold JS.stripSuffix. rewrite endsWith_append, length_append.
  replace (String.length base + String.length suffix - String.length suffix)
    with (String.length base) by lia.
  apply take_append.
Qed.

Lemma matchesAt_cons (p c : ascii) (pat s : string) :
  Regex.matchesAt (String p pat) (String c s)
    = Regex.matchChar p c && Regex.matchesAt pat s.
Proof. done. Qed.

Lemma matchChar_dot (c : ascii) :
  Regex.isLineTerminator c = false → Regex.matchChar "." c = true.
Proof. intros Hc. unfold Regex.matchChar. by rewrite Ascii.eqb_refl, Hc. Qed.

End SuffixFacts.

(** X9: the typings re-export refers to the typings file without its
    extension: both [.d.ts] and [.d.tsx] are dropped from the end of a
    path. *)
Theorem stripTypingsExtension_drops (base : string) :
  stripTypingsExtension (base +:+ ".d.ts") = base ∧
  stripTypingsExtension (base +:+ ".d.tsx") = base.
Proof.
  unfold stripTypingsExtension. split.
  - by rewrite endsWith_append, stripSuffix_append.
  - assert (JS.endsWith (base +:+ ".d.tsx") ".d.ts" = false) as ->.
    { unfold JS.endsWith. rewrite length_append.
      replace (String.length base + String.length ".d.tsx" - String.length ".d.ts")
        with (String.length base + 1) by (simpl; lia).
      rewrite substr_plus, substr_append. simpl. apply andb_false_r. }
    apply stripSuffix_append.
Qed.

(** X10: the metadata re-export drops [.metadata.json] from the end of the
    metadata path, and as the dots of the expression are not escaped, any
    two characters but line terminators are accepted in their place. *)
Theorem metadata_extension_dropped (base : string) (c1 c2 : ascii) :
  Regex.isLineTerminator c1 = false →
  Regex.isLineTerminator c2 = false →
  Regex.stripMatchAtEnd ".metadata.json"
    (base +:+ String c1 ("metadata" +:+ String c2 "json")) = base.
Proof.
  intros H1 H2.
  assert (Regex.matchesAt ".metadata.json" (String c1 ("metadata" +:+ String c2 "json"))
          = true) as Hmatch.
  { change ("metadata" +:+ String c2 "json")
      with (String "m" (String "e" (String "t" (String "a" (String "d" (String "a"
              (String "t" (String "a" (String c2 "json"))))))))).
    rewrite !matchesAt_cons, (matchChar_dot c1), (matchChar_dot c2) by done.
    reflexivity. }
  unfold Regex.stripMatchAtEnd. rewrite length_append.
  replace (String.length base + String.length (String c1 ("metadata" +:+ String c2 "json"))
           - String.length ".metadata.json") with (String.length base) by (simpl; lia).
  rewrite substr_append, take_append, Hmatch, andb_true_r.
  replace (String.length ".metadata.json"
             <=? String.length base
                 + String.length (String c1 ("metadata" +:+ String c2 "json")))%nat
    with true by (symmetry; apply Nat.leb_le; simpl; lia).
  done.
Qed.

Lemma metadata_extension_dropped_witness :
  Regex.stripMatchAtEnd ".metadata.json"
    ("bazel-out/bin/http/http" +:+ String "_" ("metadata" +:+ String "." "json"))
    = "bazel-out/bin/http/http".
Proof.
  apply (metadata_extension_dropped "bazel-out/bin/http/http" "_" "."); reflexivity.
Defined.

(** ** The rewrite of the source-map reference *)

Section SedTextFacts.

Implicit Types (pat rep line content before after cur s : string).

Lemma matchesSomewhere_false pat line :
  matchesSomewhere pat line = false →
  ∀ i, Regex.matchesAt pat (JS.substr line i) = false.
Proof.
  induction line as [|c line IH]; intros Hnone i.
  - cbn [matchesSomewhere] in Hnone. apply orb_false_elim in Hnone as [Hhere _].
    by destruct i.
  - cbn [matchesSomewhere] in Hnone. apply orb_false_elim in Hnone as [Hhere Hrest].
    destruct i as [|i]; [done|]. by apply IH.
Qed.

Lemma splitFrom_lineFeed_cons cur (c : ascii) s :
  JS.splitFrom JSON.lineFeed 0 cur (String c s) =
    if Ascii.eqb c Regex.newline then cur :: JS.splitFrom JSON.lineFeed 0 "" s
    else JS.splitFrom JSON.lineFeed 0 (cur +:+ String c "") s.
Proof.
  unfold JSON.lineFeed. cbn [JS.splitFrom JS.startsWith].
  rewrite (Ascii.eqb_sym Regex.newline c), startsWith_empty.
  by destruct (Ascii.eqb c Regex.newline).
Qed.

Lemma splitFrom_lineFeedFree cur s :
  lineFeedFree s = true → JS.splitFrom JSON.lineFeed 0 cur s = [cur +:+ s].
Proof.
  revert cur. induction s as [|c s IH]; intros cur Hs.
  - by rewrite append_nil_r.
  - unfold lineFeedFree in Hs. cbn [list_ascii_of_string forallb] in Hs.
    apply andb_prop in Hs as [Hc Hs]. rewrite splitFrom_lineFeed_cons.
    destruct (Ascii.eqb c Regex.newline); [done|].
    rewrite IH by done. by rewrite append_assoc.
Qed.

Lemma lineFeedFree_append s t : lineFeedFree (s +:+ t) = lineFeedFree s && lineFeedFree t.
Proof.
  unfold lineFeedFree. induction s as [|c s IH]; [done|].
  rewrite append_cons. cbn [list_ascii_of_string forallb]. by rewrite IH, andb_assoc.
Qed.

End SedTextFacts.

(** X11: for an old map name without metacharacters, which the expression
    made of it matches character by character, a file in which no line
    holds a match is left exactly as it is by the rewrite. *)
Theorem sedText_without_match (pattern replacement content : string) :
  Regex.plainPattern pattern = true →
  forallb (λ line, negb (matchesSomewhere pattern line))
          (JS.split content JSON.lineFeed) = true →
  sedText pattern replacement content = content.
Proof.
  intros _ Hnone. unfold sedText.
  rewrite <- (join_split content JSON.lineFeed) at 2 by done. f_equal.
  rewrite forallb_forall in Hnone.
  rewrite <- (map_id (JS.split content JSON.lineFeed)) at 2.
  apply map_ext_in. intros line Hline. apply replaceFirstMatch_none.
  apply matchesSomewhere_false. specialize (Hnone line Hline).
  by destruct (matchesSomewhere pattern line).
Qed.

Lemma sedText_without_match_witness :
  sedText "http__testing.js.map" "testing.js.map"
          ("export {};" +:+ JSON.lineFeed +:+ "//# sourceMappingURL=other.js.map")
    = "export {};" +:+ JSON.lineFeed +:+ "//# sourceMappingURL=other.js.map".
Proof. apply sedText_without_match; reflexivity. Defined.

(** X12: for an old map name without metacharacters and a new one without
    [$], a one-line file whose first match of the old map name is the name
    itself has that reference replaced by the new name and the rest
    kept. *)
Theorem sedText_rewrites_reference (old new before after : string) :
  Regex.plainPattern old = true →
  Regex.plainReplacement new = true →
  forallb (λ c, negb (Regex.isLineTerminator c)) (list_ascii_of_string old) = true →
  lineFeedFree (before +:+ old +:+ after) = true →
  (∀ i, i < String.length before →
        Regex.matchesAt old (JS.substr (before +:+ old +:+ after) i) = false) →
  sedText old new (before +:+ old +:+ after) = before +:+ new +:+ after.
Proof.
  intros _ _ Hold Hfree Hleft. unfold sedText, JS.split.
  rewrite splitFrom_lineFeedFree, append_nil by done. cbn [map JS.join String.concat].
  rewrite replaceFirstMatch_leftmost; [|by apply matchesAt_self|done].
  by rewrite substr_append.
Qed.

Lemma sedText_rewrites_reference_witness :
  sedText "http__testing.js.map" "testing.js.map"
          ("//# url=" +:+ "http__testing.js.map" +:+ " */")
    = "//# url=" +:+ "testing.js.map" +:+ " */".
Proof.
  apply (sedText_rewrites_reference "http__testing.js.map" "testing.js.map" "//# url=" " */");
    [reflexivity | reflexivity | reflexivity | reflexivity |].
  intros i Hi. do 8 (destruct i as [|i]; [reflexivity|]). simpl in Hi. lia.
Defined.

(** ** Plain copies *)

(** X13: a file whose output path holds no escape is copied under its
    output name ([.js] for [.mjs]): the copy has the content of the file,
    and every other file, the original among them, is as before. *)
Theorem copyFile_plain
    (H : Host) (file baseDir relative content : string) (st : State) :
  let outFile := Path.join [Path.join [baseDir; relative]; outputName file] in
  JS.includes outFile "__" = false →
  files st !! fileKey H file = Some content →
  fileKey H file ≠ fileKey H outFile →
  copyFile H file baseDir relative st
    = Ok (tt, mkState (<[fileKey H outFile := content]> (files st))
                      (Copied (fileKey H file) (fileKey H outFile) :: events st)).
Proof.
  intros outFile Hplain Hfile Hne. unfold copyFile, shx_mkdir_p. fold outFile.
  rewrite Hplain. unfold mbind, M_bind, mret, M_ret.
  by rewrite (shx_cp_run H file outFile content).
Qed.

Lemma copyFile_plain_witness :
  copyFile Sample.host (Sample.bin +:+ "/bundles/common.umd.js") "dist/common" "bundles"
           Sample.start
    = Ok (tt, mkState (<["/execroot/dist/common/bundles/common.umd.js" := "umd"]> Sample.disk)
                      [Copied "/execroot/bazel-out/bin/packages/common/bundles/common.umd.js"
                              "/execroot/dist/common/bundles/common.umd.js"]).
Proof.
  assert (fileKey Sample.host (Sample.bin +:+ "/bundles/common.umd.js")
            ≠ fileKey Sample.host
                (Path.join [Path.join ["dist/common"; "bundles"];
                            outputName (Sample.bin +:+ "/bundles/common.umd.js")]))
    as Hne by (vm_compute; discriminate).
  exact (copyFile_plain Sample.host (Sample.bin +:+ "/bundles/common.umd.js")
           "dist/common" "bundles" "umd" Sample.start eq_refl eq_refl Hne).
Defined.

(** X14: the copy of a file that does not exist throws the error of
    [cp], whatever the name of the file and the directory it is copied
    to: it does not return. *)
Theorem copyFile_missing (H : Host) (file baseDir relative : string) (st : State) :
  files st !! fileKey H file = None →
  copyFile H file baseDir relative st
    = Throw (ShellError "cp: no such file or directory").
Proof.
  intros Hfile. unfold copyFile, shx_mkdir_p, shx_cp.
  unfold mbind, M_bind, mret, M_ret, getFiles. by rewrite Hfile.
Qed.

Lemma copyFile_missing_witness :
  copyFile Sample.host "README.md" "dist/common" "." Sample.start
    = Throw (ShellError "cp: no such file or directory").
Proof. apply copyFile_missing. reflexivity. Defined.

(** ** The manifests that the loop has seen *)

Section SeenFacts.

Context (H : Host) (P : Params) (mm : ModulesManifest).

Lemma processSrc_packages (progress progress' : Progress) (src : string) (st st' : State) :
  processSrc H P mm progress src st = Ok (progress', st') →
  if String.eqb (Path.basename src) "package.json"
  then ∃ packageJson,
         files st !! fileKey H src ≫= parseManifest H = Some packageJson ∧
         packagesWithExistingPackageJson progress'
           = addPackage (getField "name" packageJson)
                        (packagesWithExistingPackageJson progress)
  else packagesWithExistingPackageJson progress'
         = packagesWithExistingPackageJson progress.
Proof.
  unfold processSrc. intros (warned & st0 & Hwarn & Hrun)%bind_Ok_inv.
  assert (files st0 = files st) as Hfiles.
  { revert Hwarn. by destruct (isBuildOutput P src); intros [= _ <-]. }
  apply bind_Ok_inv in Hrun as (content & st1 & [Hread ->]%fs_readFileSync_Ok & Hrun).
  rewrite Hfiles in Hread.
  destruct (String.eqb (Path.basename src) "package.json").
  - destruct (parseManifest H content) as [packageJson|] eqn:Hparse; [|discriminate].
    apply bind_Ok_inv in Hrun as (amended & st3 & _ & Hrun).
    apply bind_Ok_inv in Hrun as (root & st4 & _ & Hrun).
    apply bind_Ok_inv in Hrun as ([] & st5 & _ & Hrun).
    injection Hrun as <- <-. exists packageJson. rewrite Hread. by split.
  - apply bind_Ok_inv in Hrun as ([] & st5 & _ & Hrun). by injection Hrun as <- <-.
Qed.

End SeenFacts.

(** X15: when the loop over the sources returns, the set of packages with
    an existing manifest holds, beside what it held before, exactly the
    names of the manifests that were read. *)
Theorem foldM_processSrc_packages
    (H : Host) (P : Params) (mm : ModulesManifest) (sources : list string)
    (progress progress' : Progress) (st : State) :
  returned (foldM (processSrc H P mm) progress sources st) = Some progress' →
  ∀ name,
    name ∈ packagesWithExistingPackageJson progress' ↔
    name ∈ packagesWithExistingPackageJson progress ∨
    Some name ∈ manifestNames H P mm progress sources st.
Proof.
  revert progress st. induction sources as [|src sources IH]; intros progress st Hrun name.
  - injection Hrun as <-. cbn [manifestNames]. rewrite elem_of_nil. tauto.
  - cbn [foldM manifestNames] in *. rewrite bind_run in Hrun.
    destruct (processSrc H P mm progress src st) as [[progress1 st1]|e] eqn:Hstep;
      [|discriminate].
    apply processSrc_packages in Hstep. rewrite (IH _ _ Hrun), elem_of_app.
    destruct (String.eqb (Path.basename src) "package.json").
    + destruct Hstep as (packageJson & -> & ->).
      rewrite list_elem_of_singleton.
      destruct (getField "name" packageJson) as [name'|]; cbn [addPackage].
      * rewrite elem_of_union, elem_of_singleton. split.
        -- intros [[->|?]|?]; [right; by left | by left | right; by right].
        -- intros [?|[[= ->]|?]]; [left; by right | left; by left | by right].
      * split.
        -- intros [?|?]; [by left | right; by right].
        -- intros [?|[[=]|?]]; [by left | by right].
    + rewrite Hstep, elem_of_nil. tauto.
Qed.

Lemma foldM_processSrc_packages_witness :
  let P := Sample.params Sample.sources in
  let start := mkProgress false (Some "") ∅ in
  let progress' :=
    mkProgress false (Some "@angular/common")
               ({["@angular/common/http"]} ∪ ({["@angular/common"]} ∪ ∅)) in
  "@angular/common/http" ∈ packagesWithExistingPackageJson progress' ↔
  "@angular/common/http" ∈ packagesWithExistingPackageJson start ∨
  Some "@angular/common/http"
    ∈ manifestNames Sample.host P Sample.indexed start Sample.sources Sample.start.
Proof.
  intros P start progress'.
  refine (foldM_processSrc_packages Sample.host P Sample.indexed Sample.sources
            start progress' Sample.start _ "@angular/common/http").
  vm_compute. reflexivity.
Defined.

(** X16: once a root package name is known, a manifest without a name
    stops the run with a type error. *)
Theorem processSrc_nameless_throws
    (H : Host) (P : Params) (mm : ModulesManifest) (progress : Progress)
    (src content root : string) (packageJson : PackageJson) (st : State) :
  Path.basename src = "package.json" →
  files st !! fileKey H src = Some content →
  parseManifest H content = Some packageJson →
  getField "name" packageJson = None →
  rootPackageName progress = Some root →
  root ≠ "" →
  ∃ what, processSrc H P mm progress src st = Throw (TypeError what).
Proof.
  intros Hbase Hfile Hparse Hname Hroot Hnonempty.
  unfold processSrc. rewrite Hbase, String.eqb_refl. cbv zeta.
  rewrite bind_run.
  set (st0 := match _ with Ok _ => _ | Throw _ => _ end).
  assert (∃ log, (if isBuildOutput P src
                  then console_error
                         ("The " +:+ JSON.quote "srcs"
                          +:+ " for ng_package should not include output of other rules. Found:"
                          +:+ JSON.lineFeed +:+ "  " +:+ src)
                  else mret tt) st = Ok (tt, mkState (files st) log)) as [log Hwarn].
  { destruct (isBuildOutput P src); [by eexists|]. exists (events st). by destruct st. }
  subst st0. rewrite Hwarn.
  unfold fs_readFileSync. rewrite !bind_run. cbn [getFiles files].
  rewrite Hfile, ret_run, Hparse, bind_run.
  unfold amendPackageJson. rewrite Hname. cbn [propertyKey default from_option id].
  assert (selectRoot (rootPackageName progress) None
          = Throw (TypeError "packageName.length")) as Hselect.
  { rewrite Hroot. unfold selectRoot. by rewrite truthy_nonempty. }
  assert (inheritedProperty "undefined" = false) as -> by reflexivity.
  destruct (getModule "undefined" mm) as [moduleData|].
  - destruct (guessedPaths moduleData && negb false
              && hasExplicitFormatProperties packageJson).
    + eexists. rewrite bind_run. unfold warnExplicitFormat, console_error.
      unfold mbind, M_bind, mret, M_ret, emit. cbn. by rewrite Hselect.
    + by eexists.
  - eexists. rewrite bind_run. unfold warnNoModuleData, console_error.
    unfold mbind, M_bind, mret, M_ret, emit. cbn. by rewrite Hselect.
Qed.

Lemma processSrc_nameless_throws_witness :
  ∃ what,
    processSrc Stray.host (Sample.params []) Sample.indexed
               (mkProgress false (Some "@angular/common") ∅)
               "packages/common/stray/package.json" Stray.start
      = Throw (TypeError what).
Proof.
  assert ("@angular/common" ≠ "") as Hroot by discriminate.
  exact (processSrc_nameless_throws Stray.host (Sample.params []) Sample.indexed
           (mkProgress false (Some "@angular/common") ∅)
           "packages/common/stray/package.json" (JSON.stringify Stray.manifest)
           "@angular/common" Stray.manifest Stray.start
           eq_refl eq_refl eq_refl eq_refl eq_refl Hroot).
Defined.

(** ** Entry points, whatever their names *)

Section EntryFacts.

Lemma substr_truthy (s : string) (n : nat) :
  n < String.length s → JS.truthy (JS.substr s n) = true.
Proof.
  revert s. induction n as [|n IH]; intros s Hn.
  - destruct s; simpl in *; [lia | done].
  - destruct s as [|c s]; simpl in *; [lia | apply IH; lia].
Qed.

End EntryFacts.

(** X17: the name of an entry is not compared with the root name, only
    its length is: every entry more than one character longer than the
    root name has its files produced, under its name without as many
    leading characters as the root name has and one more: the metadata
    re-export when the entry has a metadata path, the typings re-export,
    and the manifest when no source manifest carried the entry's name are
    in the file system with their content, and nothing else has changed. *)
Theorem synthesizeEntryPoint_by_length
    (H : Host) (P : Params) (mm : ModulesManifest) (licenseBanner : string)
    (progress : Progress) (root entryPointPackageName esm : string)
    (moduleFiles : ModuleFiles) (st : State) :
  rootPackageName progress = Some root →
  String.length root + 1 < String.length entryPointPackageName →
  getModule entryPointPackageName mm = Some moduleFiles →
  esm2015_index moduleFiles = Some esm →
  let name := JS.substr entryPointPackageName (String.length root + 1) in
  let metadataPath := Path.join [srcDir P; name +:+ ".metadata.json"] in
  let typingsPath := Path.join [srcDir P; name +:+ ".d.ts"] in
  let manifestPath := Path.join [srcDir P; name; "package.json"] in
  let st1 :=
    match metadata moduleFiles with
    | Some file =>
        if JS.truthy file
        then afterWrite H P metadataPath
               (metadataReexport
                  (srcDirRelative H P metadataPath
                     (Regex.stripMatchAtEnd ".metadata.json" file))
                  entryPointPackageName
                +:+ JSON.lineFeed) st
        else st
    | None => st
    end in
  let st2 :=
    afterWrite H P typingsPath
      (licenseBanner +:+ JSON.lineFeed +:+ "export * from '"
       +:+ srcDirRelative H P typingsPath (stripTypingsExtension (typings moduleFiles))
       +:+ "';" +:+ JSON.lineFeed) st1 in
  let st3 :=
    if bool_decide (entryPointPackageName ∈ packagesWithExistingPackageJson progress)
    then st2
    else afterWrite H P manifestPath
           (JSON.stringify
              (setFormatFields H P manifestPath entryPointPackageName esm
                               (typings moduleFiles) [("name", entryPointPackageName)]))
           st2 in
  synthesizeEntryPoint H P mm licenseBanner progress
      (entryPointPackageName, moduleFiles) st
    = Ok (tt, st3).
Proof.
  intros Hroot Hlong Hmodule Hindex.
  apply synthesizeEntryPoint_run; [done | by apply substr_truthy | done | done].
Qed.

Lemma synthesizeEntryPoint_by_length_witness :
  let P := Sample.params [] in
  let progress := mkProgress false (Some "@angular/router") ∅ in
  let moduleFiles :=
    attachIndexPaths Sample.host P
      (mkModuleFiles (Sample.bin +:+ "/testing/testing.js")
                     (Sample.bin +:+ "/testing/testing.d.ts") None true None None) in
  let name := JS.substr "@angular/common/testing" (String.length "@angular/router" + 1) in
  let typingsPath := Path.join [srcDir P; name +:+ ".d.ts"] in
  let manifestPath := Path.join [srcDir P; name; "package.json"] in
  name = "testing" ∧
  synthesizeEntryPoint Sample.host P Sample.indexed "" progress
      ("@angular/common/testing", moduleFiles) Sample.start
    = Ok (tt,
          afterWrite Sample.host P manifestPath
            (JSON.stringify
               (setFormatFields Sample.host P manifestPath "@angular/common/testing"
                  "bazel-out/bin/packages/common/esm2015/testing/testing.js"
                  (typings moduleFiles) [("name", "@angular/common/testing")]))
            (afterWrite Sample.host P typingsPath
               ("" +:+ JSON.lineFeed +:+ "export * from '"
                +:+ srcDirRelative Sample.host P typingsPath
                      (stripTypingsExtension (typings moduleFiles))
                +:+ "';" +:+ JSON.lineFeed) Sample.start)).
Proof.
  assert (String.length "@angular/router" + 1 < String.length "@angular/common/testing")
    as Hlong by (vm_compute; lia).
  split; [reflexivity|].
  exact (synthesizeEntryPoint_by_length Sample.host (Sample.params []) Sample.indexed ""
           (mkProgress false (Some "@angular/router") ∅)
           "@angular/router" "@angular/common/testing"
           "bazel-out/bin/packages/common/esm2015/testing/testing.js" _ Sample.start
           eq_refl Hlong eq_refl eq_refl).
Defined.

(** ** The index paths *)

(** X18: the pass over the mapping keeps the entries, their order and
    their four given fields, and attaches to each entry the ES5 and ES2015
    index paths: the bin directory, [esm5] or [esm2015], and the index
    path relative to the bin directory. *)
Theorem indexModules_entries
    (H : Host) (P : Params) (entries entries' : ModulesManifest) (st : State) :
  returned (indexModules H P entries st) = Some entries' →
  entries'.*1 = entries.*1 ∧
  Forall2 (λ e e',
             index e'.2 = index e.2 ∧ typings e'.2 = typings e.2 ∧
             metadata e'.2 = metadata e.2 ∧ guessedPaths e'.2 = guessedPaths e.2 ∧
             esm5_index e'.2
               = Some (Path.join [binDir P; "esm5";
                                  path_relative H (binDir P) (index e.2)]) ∧
             esm2015_index e'.2
               = Some (Path.join [binDir P; "esm2015";
                                  path_relative H (binDir P) (index e.2)]))
          entries entries'.
Proof.
  destruct (indexModules H P entries st) as [[result st']|e] eqn:Hrun; [|discriminate].
  intros [= ->]. apply indexModules_Ok in Hrun as ->. split.
  - induction entries as [|[k v] entries IH]; [done|]. cbn. by rewrite IH.
  - induction entries as [|[k v] entries IH]; [by constructor|].
    cbn [fmap list_fmap]. by constructor.
Qed.

Lemma indexModules_entries_witness :
  Sample.indexed.*1 = Sample.modules.*1 ∧
  Forall2 (λ e e',
             index e'.2 = index e.2 ∧ typings e'.2 = typings e.2 ∧
             metadata e'.2 = metadata e.2 ∧ guessedPaths e'.2 = guessedPaths e.2 ∧
             esm5_index e'.2
               = Some (Path.join [binDir (Sample.params []); "esm5";
                                  path_relative Sample.host (binDir (Sample.params []))
                                                (index e.2)]) ∧
             esm2015_index e'.2
               = Some (Path.join [binDir (Sample.params []); "esm2015";
                                  path_relative Sample.host (binDir (Sample.params []))
                                                (index e.2)]))
          Sample.modules Sample.indexed.
Proof.
  apply (indexModules_entries Sample.host (Sample.params []) Sample.modules Sample.indexed
           Sample.start).
  vm_compute. reflexivity.
Defined.

(** ** Paths below a directory *)

Section PathFacts.

Implicit Types (p root rest seg cwd : string) (segs kept : list string).

Lemma plainSegment_inv seg :
  plainSegment seg = true →
  slashFree seg = true ∧ seg ≠ "" ∧ seg ≠ "." ∧ seg ≠ "..".
Proof.
  unfold plainSegment. intros Hseg.
  repeat (apply andb_prop in Hseg as [Hseg ?]).
  split_and!; [done|..]; intros ->; done.
Qed.

Lemma forallb_plain_slashFree segs :
  forallb plainSegment segs = true → Forall (λ seg, slashFree seg = true) segs.
Proof.
  rewrite forallb_forall, Forall_forall. intros Hsegs seg Hseg%list_elem_of_In.
  by apply Hsegs, plainSegment_inv in Hseg as [? _].
Qed.

Lemma normStep_plain (allow : bool) kept seg :
  plainSegment seg = true → Path.normStep allow kept seg = seg :: kept.
Proof.
  intros (_ & H1 & H2 & H3)%plainSegment_inv. unfold Path.normStep.
  destruct (String.eqb_spec seg ""); [done|].
  destruct (String.eqb_spec seg "."); [done|].
  by destruct (String.eqb_spec seg "..").
Qed.

Lemma fold_normStep_plain (allow : bool) segs kept :
  forallb plainSegment segs = true →
  fold_left (Path.normStep allow) segs kept = rev segs ++ kept.
Proof.
  revert kept. induction segs as [|seg segs IH]; intros kept Hsegs; [done|].
  cbn [forallb] in Hsegs. apply andb_prop in Hsegs as [Hseg Hsegs].
  cbn [fold_left rev]. rewrite normStep_plain, IH by done. by rewrite <- app_assoc.
Qed.

(** Normalization keeps the plain segments that follow a path. *)
Lemma normalizeSegments_below (allow : bool) p segs :
  segs ≠ [] → forallb plainSegment segs = true →
  Path.normalizeSegments allow (p +:+ "/" +:+ JS.join segs "/")
    = Path.normalizeSegments allow p ++ segs.
Proof.
  intros Hne Hsegs. unfold Path.normalizeSegments, Path.slash.
  rewrite split_app_slash, split_join, fold_left_app, fold_normStep_plain
    by (done || by apply forallb_plain_slashFree).
  by rewrite rev_app_distr, rev_involutive.
Qed.

Lemma normalizeSegments_trailing (allow : bool) p :
  Path.normalizeSegments allow (p +:+ "/") = Path.normalizeSegments allow p.
Proof.
  unfold Path.normalizeSegments, Path.slash.
  change (p +:+ "/") with (p +:+ "/" +:+ "").
  by rewrite split_app_slash, fold_left_app.
Qed.

Lemma normalizeSegments_join (allow : bool) segs :
  segs ≠ [] → forallb plainSegment segs = true →
  Path.normalizeSegments allow (JS.join segs "/") = segs.
Proof.
  intros Hne Hsegs. unfold Path.normalizeSegments, Path.slash.
  rewrite split_join, fold_normStep_plain by (done || by apply forallb_plain_slashFree).
  by rewrite app_nil_r, rev_involutive.
Qed.

(** What normalization keeps is never empty and holds no slash. *)
Lemma normalizeSegments_kept (allow : bool) p :
  Forall (λ seg, slashFree seg = true ∧ seg ≠ "") (Path.normalizeSegments allow p).
Proof.
  unfold Path.normalizeSegments. apply Forall_rev.
  assert (∀ segs kept,
            Forall (λ seg, slashFree seg = true) segs →
            Forall (λ seg, slashFree seg = true ∧ seg ≠ "") kept →
            Forall (λ seg, slashFree seg = true ∧ seg ≠ "")
                   (fold_left (Path.normStep allow) segs kept)) as Hfold.
  { intros segs. induction segs as [|seg segs IH]; intros kept Hsegs Hkept; [done|].
    apply Forall_cons in Hsegs as [Hseg Hsegs]. cbn [fold_left]. apply IH; [done|].
    unfold Path.normStep. destruct (String.eqb_spec seg ""); [done|]. cbn [orb].
    destruct (String.eqb seg "."); [done|].
    destruct (String.eqb seg "..").
    - destruct kept as [|top kept']; [by destruct allow; repeat constructor|].
      destruct (String.eqb top "..").
      + destruct allow; [|done]. by constructor.
      + by apply Forall_cons in Hkept as [_ ?].
    - by constructor. }
  apply Hfold; [apply split_parts_slashFree | constructor].
Qed.

Lemma join_nonempty_segs segs sep :
  segs ≠ [] → Forall (λ seg, seg ≠ "") segs → JS.join segs sep ≠ "".
Proof.
  intros Hne Hsegs. destruct Hsegs as [|seg segs Hseg Hsegs]; [done|].
  destruct segs; [done|]. rewrite join_cons_cons. by destruct seg.
Qed.

Lemma resolvedSegments_join segs :
  Forall (λ seg, slashFree seg = true ∧ seg ≠ "") segs →
  Path.resolvedSegments ("/" +:+ JS.join segs "/") = segs.
Proof.
  intros Hsegs. unfold Path.resolvedSegments, Path.slash.
  change ("/" +:+ JS.join segs "/") with ("" +:+ "/" +:+ JS.join segs "/").
  rewrite split_app_slash. change (JS.split "" "/") with [""].
  destruct segs as [|seg segs]; [done|].
  rewrite split_join; [|done|by eapply Forall_impl; [done|intros ? []]].
  cbn [app]. rewrite filter_cons_False by done.
  clear -Hsegs. induction Hsegs as [|s l [_ Hs] _ IH]; [done|].
  rewrite filter_cons_True by (by destruct s). by rewrite IH.
Qed.

Lemma dropCommon_app (A B : list string) : Path.dropCommon A (A ++ B) = ([], B).
Proof.
  induction A as [|a A IH]; [by destruct B|]. cbn [app Path.dropCommon].
  by rewrite String.eqb_refl.
Qed.

Lemma isAbsolute_append root rest :
  root ≠ "" → Path.isAbsolute (root +:+ rest) = Path.isAbsolute root.
Proof.
  intros Hroot. destruct root as [|c root]; [done|]. unfold Path.isAbsolute, Path.slash.
  rewrite append_cons. cbn [JS.startsWith]. by rewrite !startsWith_empty.
Qed.

Lemma isEmpty_append_false root rest : root ≠ "" → JS.isEmpty (root +:+ rest) = false.
Proof. by destruct root. Qed.

(** The resolved form of a non-empty path in an absolute working
    directory. *)
Lemma resolve_segments cwd p :
  Path.isAbsolute cwd = true → p ≠ "" →
  Path.resolve cwd p
    = "/" +:+ JS.join (Path.normalizeSegments false
                         (if Path.isAbsolute p then p else cwd +:+ "/" +:+ p)) "/".
Proof.
  intros Hcwd Hp. unfold Path.resolve.
  assert (JS.isEmpty p = false) as -> by (by destruct p).
  assert (JS.isEmpty cwd = false) as -> by (by destruct cwd).
  rewrite Hcwd. unfold Path.normalizeString, Path.slash.
  destruct (Path.isAbsolute p); cbn [negb].
  - by rewrite normalizeSegments_trailing.
  - rewrite <- !append_assoc. by rewrite normalizeSegments_trailing, !append_assoc.
Qed.

(** The path from a directory to a path below it is the part below. *)
Lemma relative_below cwd root segs :
  Path.isAbsolute cwd = true → root ≠ "" →
  segs ≠ [] → forallb plainSegment segs = true →
  Path.relative cwd root (root +:+ "/" +:+ JS.join segs "/") = JS.join segs "/".
Proof.
  intros Hcwd Hroot Hne Hsegs. unfold Path.relative.
  assert (String.eqb root (root +:+ "/" +:+ JS.join segs "/") = false) as ->.
  { apply String.eqb_neq. intros Heq. apply (f_equal String.length) in Heq.
    rewrite !length_append in Heq. simpl in Heq. lia. }
  rewrite !resolve_segments by (done || by destruct root).
  rewrite (isAbsolute_append root) by done.
  set (base := if Path.isAbsolute root then root else cwd +:+ "/" +:+ root).
  assert ((if Path.isAbsolute root then root +:+ "/" +:+ JS.join segs "/"
           else cwd +:+ "/" +:+ root +:+ "/" +:+ JS.join segs "/")
          = base +:+ "/" +:+ JS.join segs "/") as ->.
  { unfold base. destruct (Path.isAbsolute root); [done|]. by rewrite !append_assoc. }
  rewrite normalizeSegments_below by done.
  set (A := Path.normalizeSegments false base).
  assert (Forall (λ seg, slashFree seg = true ∧ seg ≠ "") A) as HA
    by apply normalizeSegments_kept.
  assert (Forall (λ seg, slashFree seg = true ∧ seg ≠ "") (A ++ segs)) as HAsegs.
  { apply Forall_app. split; [done|]. apply Forall_forall. intros seg Hseg.
    rewrite forallb_forall in Hsegs.
    by apply list_elem_of_In, Hsegs, plainSegment_inv in Hseg as (? & ? & _). }
  destruct (String.eqb_spec ("/" +:+ JS.join A "/") ("/" +:+ JS.join (A ++ segs) "/"))
    as [Heq|_].
  - apply (f_equal Path.resolvedSegments) in Heq.
    rewrite !resolvedSegments_join in Heq by done.
    apply (f_equal length) in Heq. rewrite length_app in Heq.
    destruct segs; [done | simpl in Heq; lia].
  - unfold Path.slash. by rewrite !resolvedSegments_join, dropCommon_app by done.
Qed.

End PathFacts.

Section JoinFacts.

Implicit Types (s t seg : string) (segs A B : list string).

Lemma slashFree_substr s (n : nat) : slashFree s = true → slashFree (JS.substr s n) = true.
Proof.
  revert s. induction n as [|n IH]; intros s Hs; [done|].
  destruct s as [|c s]; [done|]. rewrite slashFree_cons in Hs.
  apply andb_prop in Hs as [_ Hs]. by apply IH.
Qed.

(** A path that ends in a non-empty segment has no trailing slash. *)
Lemma endsWith_slash_segment s seg :
  slashFree seg = true → seg ≠ "" → JS.endsWith (s +:+ seg) "/" = false.
Proof.
  intros Hfree Hseg. unfold JS.endsWith. rewrite length_append.
  replace (String.length s + String.length seg - String.length "/")
    with (String.length s + (String.length seg - 1))
    by (destruct seg; [done | simpl; lia]).
  rewrite substr_plus, substr_append.
  destruct (String.eqb_spec (JS.substr seg (String.length seg - 1)) "/") as [Heq|];
    [|apply andb_false_r].
  pose proof (slashFree_substr seg (String.length seg - 1) Hfree) as Hsub.
  by rewrite Heq in Hsub.
Qed.

Lemma join_snoc segs seg :
  ∃ s, JS.join (segs ++ [seg]) "/" = s +:+ seg.
Proof.
  destruct segs as [|x segs]; [by exists ""|].
  exists (JS.join (x :: segs) "/" +:+ "/"). by rewrite join_app, append_assoc.
Qed.

Lemma endsWith_slash_join segs :
  segs ≠ [] → forallb plainSegment segs = true → JS.endsWith (JS.join segs "/") "/" = false.
Proof.
  intros Hne Hsegs. destruct (exists_last Hne) as (segs' & seg & ->).
  rewrite forallb_app in Hsegs. apply andb_prop in Hsegs as [_ Hseg].
  cbn [forallb] in Hseg. rewrite andb_true_r in Hseg.
  apply plainSegment_inv in Hseg as (? & ? & _).
  destruct (join_snoc segs' seg) as [s ->]. by apply endsWith_slash_segment.
Qed.

Lemma isAbsolute_join segs :
  segs ≠ [] → forallb plainSegment segs = true → Path.isAbsolute (JS.join segs "/") = false.
Proof.
  intros Hne Hsegs. destruct segs as [|seg segs]; [done|].
  cbn [forallb] in Hsegs. apply andb_prop in Hsegs as [Hseg _].
  apply plainSegment_inv in Hseg as (Hfree & Hseg & _).
  assert (Path.isAbsolute seg = false) as Hrel.
  { destruct seg as [|c seg]; [done|]. rewrite slashFree_cons in Hfree.
    apply andb_prop in Hfree as [Hc _]. unfold Path.isAbsolute, Path.slash.
    cbn [JS.startsWith]. unfold Path.isSlash in Hc. rewrite (Ascii.eqb_sym "/" c).
    by destruct (Ascii.eqb c "/"). }
  destruct segs; [done|]. rewrite join_cons_cons. by rewrite isAbsolute_append.
Qed.

Lemma join_plain_nonempty segs :
  segs ≠ [] → forallb plainSegment segs = true → JS.join segs "/" ≠ "".
Proof.
  intros Hne Hsegs. apply join_nonempty_segs; [done|].
  apply Forall_forall. intros seg Hseg. rewrite forallb_forall in Hsegs.
  by apply list_elem_of_In, Hsegs, plainSegment_inv in Hseg as (_ & ? & _).
Qed.

(** [path.join] of a path and a relative path of plain segments appends
    the segments to what normalization keeps of the path; for two paths
    of plain segments it is the two paths with a slash in between. *)
Lemma join_plain A B :
  A ≠ [] → forallb plainSegment A = true →
  B ≠ [] → forallb plainSegment B = true →
  Path.join [JS.join A "/"; JS.join B "/"] = JS.join A "/" +:+ "/" +:+ JS.join B "/".
Proof.
  intros HA HAp HB HBp.
  pose proof (join_plain_nonempty A HA HAp) as Ha.
  pose proof (join_plain_nonempty B HB HBp) as Hb.
  unfold Path.join.
  rewrite filter_cons_True by (by destruct (JS.join A "/")).
  rewrite filter_cons_True by (by destruct (JS.join B "/")).
  rewrite filter_nil. unfold Path.slash. rewrite join_cons_cons.
  cbn [JS.join String.concat]. unfold Path.normalize.
  rewrite isEmpty_append_false, isAbsolute_append, isAbsolute_join by done.
  unfold Path.normalizeString, Path.slash. cbn [negb].
  rewrite normalizeSegments_below, normalizeSegments_join by done.
  assert (A ++ B ≠ []) as HAB by (by destruct A).
  assert (forallb plainSegment (A ++ B) = true) as HABp
    by (by rewrite forallb_app, HAp, HBp).
  assert (JS.isEmpty (JS.join (A ++ B) "/") = false) as ->.
  { pose proof (join_plain_nonempty _ HAB HABp). by destruct (JS.join (A ++ B) "/"). }
  rewrite <- join_app by done. by rewrite endsWith_slash_join.
Qed.

Lemma length_list_ascii s : length (list_ascii_of_string s) = String.length s.
Proof. induction s as [|c s IH]; [done|]. simpl. by rewrite IH. Qed.

Lemma dirnameEnd_skip (l r : list ascii) (i : nat) (matched : bool) :
  l ≠ [] → Forall (λ c, Path.isSlash c = false) l →
  Path.dirnameEnd (l ++ "/"%char :: r) i matched = Some (i - length l).
Proof.
  intros Hne Hl. revert i matched. induction Hl as [|c l Hc Hl IH]; [done|].
  intros i matched. cbn [app Path.dirnameEnd]. rewrite Hc.
  destruct l as [|c' l].
  - cbn [app Path.dirnameEnd]. by change (Path.isSlash "/") with true.
  - rewrite IH by done. f_equal. simpl. lia.
Qed.

(** The directory of a file named by a plain segment in a relative
    directory is that directory. *)
Lemma dirname_child s seg :
  s ≠ "" → Path.isAbsolute s = false →
  slashFree seg = true → seg ≠ "" →
  Path.dirname (s +:+ "/" +:+ seg) = s.
Proof.
  intros Hs Hrel Hfree Hseg. unfold Path.dirname.
  rewrite isEmpty_append_false, isAbsolute_append, Hrel by done. cbn [andb].
  rewrite !list_ascii_append, !length_append.
  destruct s as [|c s]; [done|]. cbn [list_ascii_of_string app tail].
  rewrite rev_app_distr. cbn [rev]. rewrite <- app_assoc. cbn [app].
  rewrite dirnameEnd_skip.
  - rewrite length_rev, length_list_ascii.
    replace (String.length (String c s) + (String.length "/" + String.length seg) - 1
             - String.length seg) with (String.length (String c s)) by (simpl; lia).
    apply take_append.
  - destruct seg; [done|]. simpl. by destruct (rev _).
  - apply Forall_rev. unfold slashFree in Hfree. rewrite forallb_forall in Hfree.
    apply Forall_forall. intros ch Hch%list_elem_of_In. specialize (Hfree ch Hch).
    by destruct (Path.isSlash ch).
Qed.

Lemma includes_prefix s t : JS.includes (s +:+ t) s = true.
Proof.
  unfold JS.includes. destruct (s +:+ t) eqn:Hst; cbn [JS.indexOf];
    rewrite <- Hst, startsWith_append; done.
Qed.

End JoinFacts.

(** ** Re-rooting, on paths of plain segments *)

Section RerootFacts.

Context (H : Host) (P : Params).

(** A path below the directory it is classified under goes to the output
    directory joined with the part below. *)
Lemma outputPathOf_below (root : string) (segs : list string) :
  Path.isAbsolute (cwd H) = true → root ≠ "" →
  segs ≠ [] → forallb plainSegment segs = true →
  rootDirOf P (root +:+ "/" +:+ JS.join segs "/") = root →
  outputPathOf H P (root +:+ "/" +:+ JS.join segs "/")
    = Path.join [out P; JS.join segs "/"].
Proof.
  intros Hcwd Hroot Hne Hsegs Hclass. unfold outputPathOf, path_relative.
  by rewrite Hclass, relative_below.
Qed.

End RerootFacts.

(** X19: with an absolute working directory, a file at a path of plain
    segments below the bin directory is written at the same path below
    the output directory. *)
Theorem writeFileFromInputPath_bin
    (H : Host) (P : Params) (outSegs segs : list string) (content : string) (st : State) :
  Path.isAbsolute (cwd H) = true →
  binDir P ≠ "" →
  out P = JS.join outSegs "/" →
  outSegs ≠ [] → forallb plainSegment outSegs = true →
  segs ≠ [] → forallb plainSegment segs = true →
  let target := fileKey H (out P +:+ "/" +:+ JS.join segs "/") in
  writeFileFromInputPath H P (binDir P +:+ "/" +:+ JS.join segs "/") content st
    = Ok (tt, mkState (<[target := content]> (files st)) (Written target :: events st)).
Proof.
  intros Hcwd Hbin Hout HoutNe HoutPlain Hne Hsegs target.
  rewrite writeFileFromInputPath_run, outputPathOf_below; try done.
  - rewrite Hout, join_plain by done. unfold target. by rewrite Hout.
  - unfold rootDirOf. by rewrite includes_prefix.
Qed.

Lemma writeFileFromInputPath_bin_witness :
  let P := Sample.params [] in
  let target := fileKey Sample.host (out P +:+ "/" +:+ JS.join ["http"; "http.d.ts"] "/") in
  writeFileFromInputPath Sample.host P
      (binDir P +:+ "/" +:+ JS.join ["http"; "http.d.ts"] "/") "export {};" Sample.start
    = Ok (tt, mkState (<[target := "export {};"]> Sample.disk) [Written target]).
Proof.
  assert (binDir (Sample.params []) ≠ "") as Hbin by discriminate.
  assert (["dist"; "common"] ≠ []) as Hout by discriminate.
  assert (["http"; "http.d.ts"] ≠ []) as Hsegs by discriminate.
  exact (writeFileFromInputPath_bin Sample.host (Sample.params [])
           ["dist"; "common"] ["http"; "http.d.ts"] "export {};" Sample.start
           eq_refl Hbin eq_refl Hout eq_refl Hsegs eq_refl).
Defined.

(** X20: with an absolute working directory, a source at a path of plain
    segments below the source directory, and that contains neither the
    bin nor the genfiles directory, is written at the same path below
    the output directory. *)
Theorem writeFileFromInputPath_src
    (H : Host) (P : Params) (outSegs segs : list string) (content : string) (st : State) :
  Path.isAbsolute (cwd H) = true →
  srcDir P ≠ "" →
  out P = JS.join outSegs "/" →
  outSegs ≠ [] → forallb plainSegment outSegs = true →
  segs ≠ [] → forallb plainSegment segs = true →
  JS.includes (srcDir P +:+ "/" +:+ JS.join segs "/") (binDir P) = false →
  JS.includes (srcDir P +:+ "/" +:+ JS.join segs "/") (genfilesDir P) = false →
  let target := fileKey H (out P +:+ "/" +:+ JS.join segs "/") in
  writeFileFromInputPath H P (srcDir P +:+ "/" +:+ JS.join segs "/") content st
    = Ok (tt, mkState (<[target := content]> (files st)) (Written target :: events st)).
Proof.
  intros Hcwd Hsrc Hout HoutNe HoutPlain Hne Hsegs Hbin Hgen target.
  rewrite writeFileFromInputPath_run, outputPathOf_below; try done.
  - rewrite Hout, join_plain by done. unfold target. by rewrite Hout.
  - unfold rootDirOf. by rewrite Hbin, Hgen.
Qed.

Lemma writeFileFromInputPath_src_witness :
  let P := Sample.params [] in
  let target := fileKey Sample.host (out P +:+ "/" +:+ JS.join ["http"; "package.json"] "/") in
  writeFileFromInputPath Sample.host P
      (srcDir P +:+ "/" +:+ JS.join ["http"; "package.json"] "/") "{}" Sample.start
    = Ok (tt, mkState (<[target := "{}"]> Sample.disk) [Written target]).
Proof.
  assert (srcDir (Sample.params []) ≠ "") as Hsrc by discriminate.
  assert (["dist"; "common"] ≠ []) as Hout by discriminate.
  assert (["http"; "package.json"] ≠ []) as Hsegs by discriminate.
  exact (writeFileFromInputPath_src Sample.host (Sample.params [])
           ["dist"; "common"] ["http"; "package.json"] "{}" Sample.start
           eq_refl Hsrc eq_refl Hout eq_refl Hsegs eq_refl eq_refl eq_refl).
Defined.

(** The reference from a file of the source tree to an artifact in the
    same directory of the bin tree, or below it. *)
Lemma srcDirRelative_below_dir
    (H : Host) (P : Params) (srcSegs dirSegs segs : list string) (name : string) :
  Path.isAbsolute (cwd H) = true →
  binDir P ≠ "" →
  srcDir P = JS.join srcSegs "/" →
  srcSegs ≠ [] → forallb plainSegment srcSegs = true →
  forallb plainSegment dirSegs = true →
  plainSegment name = true →
  segs ≠ [] → forallb plainSegment segs = true →
  srcDirRelative H P
      (JS.join (srcSegs ++ dirSegs) "/" +:+ "/" +:+ name)
      (binDir P +:+ "/" +:+ JS.join (dirSegs ++ segs) "/")
    = (if JS.startsWith (JS.join segs "/") ".." then "" else "./")
      +:+ normalizeSeparators (JS.join segs "/").
Proof.
  intros Hcwd Hbin Hsrc HsrcNe HsrcPlain HdirPlain Hname Hne Hsegs.
  assert (srcSegs ++ dirSegs ≠ []) as HfromNe by (by destruct srcSegs).
  assert (forallb plainSegment (srcSegs ++ dirSegs) = true) as HfromPlain
    by (by rewrite forallb_app, HsrcPlain, HdirPlain).
  assert (dirSegs ++ segs ≠ []) as HtoNe by (destruct dirSegs; by destruct segs).
  assert (forallb plainSegment (dirSegs ++ segs) = true) as HtoPlain
    by (by rewrite forallb_app, HdirPlain, Hsegs).
  apply plainSegment_inv in Hname as (Hfree & Hname & _).
  unfold srcDirRelative, srcDirRelativeRaw, path_relative.
  rewrite relative_below, Hsrc, join_plain by done.
  rewrite dirname_child
    by (done || by apply join_plain_nonempty || by apply isAbsolute_join).
  rewrite <- join_app, app_assoc by done.
  rewrite (join_app (srcSegs ++ dirSegs) segs) by done.
  rewrite relative_below by (done || by apply join_plain_nonempty).
  rewrite normalizeSeparators_startsWith_dots.
  by destruct (JS.startsWith (JS.join segs "/") "..").
Qed.

(** X21: with an absolute working directory and a source directory of
    plain segments, a file of the source tree refers to an artifact that
    lies in the same directory of the bin tree, or below it, by the path
    from that directory on, behind [./] unless that path starts with
    [..]. *)
Theorem srcDirRelative_same_directory
    (H : Host) (P : Params) (srcSegs dirSegs segs : list string) (name : string) :
  Path.isAbsolute (cwd H) = true →
  binDir P ≠ "" →
  srcDir P = JS.join srcSegs "/" →
  srcSegs ≠ [] → forallb plainSegment srcSegs = true →
  forallb plainSegment dirSegs = true →
  plainSegment name = true →
  segs ≠ [] → forallb plainSegment segs = true →
  srcDirRelative H P
      (JS.join (srcSegs ++ dirSegs) "/" +:+ "/" +:+ name)
      (binDir P +:+ "/" +:+ JS.join (dirSegs ++ segs) "/")
    = (if JS.startsWith (JS.join segs "/") ".." then "" else "./")
      +:+ normalizeSeparators (JS.join segs "/").
Proof. apply srcDirRelative_below_dir. Qed.

Lemma srcDirRelative_same_directory_witness :
  let P := Sample.params [] in
  srcDirRelative Sample.host P
      (JS.join (["packages"; "common"] ++ ["http"]) "/" +:+ "/" +:+ "package.json")
      (binDir P +:+ "/" +:+ JS.join (["http"] ++ ["http.d.ts"]) "/")
    = (if JS.startsWith (JS.join ["http.d.ts"] "/") ".." then "" else "./")
      +:+ normalizeSeparators (JS.join ["http.d.ts"] "/").
Proof.
  assert (binDir (Sample.params []) ≠ "") as Hbin by discriminate.
  assert (["packages"; "common"] ≠ []) as Hsrc by discriminate.
  assert (["http.d.ts"] ≠ []) as Hsegs by discriminate.
  exact (srcDirRelative_same_directory Sample.host (Sample.params [])
           ["packages"; "common"] ["http"] ["http.d.ts"] "package.json"
           eq_refl Hbin eq_refl Hsrc eq_refl eq_refl eq_refl Hsegs eq_refl).
Defined.

(** ** The typings re-export, end to end *)

Section ReexportFacts.

Lemma plainSegment_extension (name extension : string) :
  slashFree name = true → slashFree extension = true →
  2 < String.length extension →
  plainSegment (name +:+ extension) = true.
Proof.
  intros Hname Hext Hlong. unfold plainSegment.
  rewrite slashFree_append, Hname, Hext. cbn [andb].
  assert (∀ s, String.length s ≤ 2 → String.eqb (name +:+ extension) s = false) as Hne.
  { intros s Hs. apply String.eqb_neq. intros Heq.
    apply (f_equal String.length) in Heq. rewrite length_append in Heq. lia. }
  by rewrite !Hne by (simpl; lia).
Qed.

End ReexportFacts.

(** X22: with an absolute working directory and source and output
    directories of plain segments, the typings re-export of an entry
    point with a one-segment name is written next to the package root
    under that name and [.d.ts]; it holds the license, a line feed and
    one [export * from] statement that refers to the typings file below
    the bin directory by its path from there, without [.d.ts]. *)
Theorem createTypingsReexportFile_content
    (H : Host) (P : Params) (srcSegs outSegs segs : list string)
    (name license : string) (st : State) :
  Path.isAbsolute (cwd H) = true →
  binDir P ≠ "" →
  srcDir P = JS.join srcSegs "/" →
  srcSegs ≠ [] → forallb plainSegment srcSegs = true →
  out P = JS.join outSegs "/" →
  outSegs ≠ [] → forallb plainSegment outSegs = true →
  slashFree name = true →
  segs ≠ [] → forallb plainSegment segs = true →
  JS.includes (srcDir P +:+ "/" +:+ name +:+ ".d.ts") (binDir P) = false →
  JS.includes (srcDir P +:+ "/" +:+ name +:+ ".d.ts") (genfilesDir P) = false →
  let target := fileKey H (out P +:+ "/" +:+ name +:+ ".d.ts") in
  let reference :=
    (if JS.startsWith (JS.join segs "/") ".." then "" else "./")
    +:+ normalizeSeparators (JS.join segs "/") in
  createTypingsReexportFile H P name license
      (binDir P +:+ "/" +:+ JS.join segs "/" +:+ ".d.ts") st
    = Ok (tt, mkState
                (<[target := license +:+ JSON.lineFeed +:+ "export * from '"
                             +:+ reference +:+ "';" +:+ JSON.lineFeed]> (files st))
                (Written target :: events st)).
Proof.
  intros Hcwd Hbin Hsrc HsrcNe HsrcPlain Hout HoutNe HoutPlain Hname Hne Hsegs
    HnotBin HnotGen target reference.
  assert (plainSegment (name +:+ ".d.ts") = true) as Hfile
    by (apply plainSegment_extension; [done | done | simpl; lia]).
  assert (forallb plainSegment [name +:+ ".d.ts"] = true) as HfilePlain
    by (by cbn [forallb]; rewrite Hfile).
  assert (Path.join [srcDir P; name +:+ ".d.ts"] = srcDir P +:+ "/" +:+ name +:+ ".d.ts")
    as HinputPath.
  { pose proof (join_plain srcSegs [name +:+ ".d.ts"] HsrcNe HsrcPlain) as Hjoin.
    cbn [JS.join String.concat] in Hjoin. rewrite Hsrc. by apply Hjoin. }
  unfold createTypingsReexportFile. rewrite HinputPath, writeFileFromInputPath_run.
  assert (stripTypingsExtension (binDir P +:+ "/" +:+ JS.join segs "/" +:+ ".d.ts")
          = binDir P +:+ "/" +:+ JS.join segs "/") as ->.
  { replace (binDir P +:+ "/" +:+ JS.join segs "/" +:+ ".d.ts")
      with ((binDir P +:+ "/" +:+ JS.join segs "/") +:+ ".d.ts")
      by (by rewrite !append_assoc).
    unfold stripTypingsExtension.
    by rewrite endsWith_append, stripSuffix_append. }
  assert (srcDirRelative H P (srcDir P +:+ "/" +:+ name +:+ ".d.ts")
            (binDir P +:+ "/" +:+ JS.join segs "/") = reference) as ->.
  { rewrite Hsrc.
    pose proof (srcDirRelative_below_dir H P srcSegs [] segs (name +:+ ".d.ts")) as Href.
    rewrite app_nil_r in Href. apply Href; done. }
  assert (outputPathOf H P (srcDir P +:+ "/" +:+ name +:+ ".d.ts")
          = out P +:+ "/" +:+ name +:+ ".d.ts") as ->.
  { pose proof (outputPathOf_below H P (srcDir P) [name +:+ ".d.ts"]) as Hpath.
    cbn [JS.join String.concat] in Hpath. rewrite Hpath.
    - pose proof (join_plain outSegs [name +:+ ".d.ts"] HoutNe HoutPlain) as Hjoin.
      cbn [JS.join String.concat] in Hjoin. rewrite Hout. by apply Hjoin.
    - done.
    - rewrite Hsrc. by apply join_plain_nonempty.
    - done.
    - done.
    - unfold rootDirOf. by rewrite HnotBin, HnotGen. }
  done.
Qed.

Lemma createTypingsReexportFile_content_witness :
  let P := Sample.params [] in
  let target := fileKey Sample.host (out P +:+ "/" +:+ "http" +:+ ".d.ts") in
  let reference :=
    (if JS.startsWith (JS.join ["http"; "http"] "/") ".." then "" else "./")
    +:+ normalizeSeparators (JS.join ["http"; "http"] "/") in
  createTypingsReexportFile Sample.host P "http" "/* MIT */"
      (binDir P +:+ "/" +:+ JS.join ["http"; "http"] "/" +:+ ".d.ts") Sample.start
    = Ok (tt, mkState
                (<[target := "/* MIT */" +:+ JSON.lineFeed +:+ "export * from '"
                             +:+ reference +:+ "';" +:+ JSON.lineFeed]> Sample.disk)
                [Written target]).
Proof.
  assert (binDir (Sample.params []) ≠ "") as Hbin by discriminate.
  assert (["packages"; "common"] ≠ []) as Hsrc by discriminate.
  assert (["dist"; "common"] ≠ []) as Hout by discriminate.
  assert (["http"; "http"] ≠ []) as Hsegs by discriminate.
  exact (createTypingsReexportFile_content Sample.host (Sample.params [])
           ["packages"; "common"] ["dist"; "common"] ["http"; "http"] "http" "/* MIT */"
           Sample.start eq_refl Hbin eq_refl Hsrc eq_refl eq_refl Hout eq_refl eq_refl
           Hsegs eq_refl eq_refl eq_refl).
Defined.
